(** * Recommenders: CI pipeline definition and the SAR-on-AzureML quick-start notebook

    The development embeds the two artefacts of the repository:

    - the Azure Pipelines definition of the "unit notebook linux gpu" build
      (a YAML document: triggers, one variable group, one template extension);
    - the notebook [examples/00_quick_start/sar_movielens_with_azureml.ipynb]
      together with the [train.py] script that its [%%writefile] cell generates.

    The notebook and the script are straight-line Python that calls into the
    AzureML SDK, pandas, [reco_utils] and the operating system.  Every such
    call is an event: it may raise any exception (decided by an environment)
    or succeed and change the world (local files, datastore blobs, logged
    metrics).  Python code is written in a small state-and-exception monad. *)

From Stdlib Require Import String Ascii List ZArith Bool Lia DecimalString DecimalZ DecimalPos.
From stdpp Require Import base gmap sets list strings.
Import ListNotations.

Local Open Scope string_scope.
Local Open Scope Z_scope.
Local Open Scope list_scope.

(* ===================================================================== *)
(** * The CI pipeline definition                                          *)
(* ===================================================================== *)

Module Pipeline.

(** YAML documents: scalars, block sequences and block mappings (in document
    order).  Comments carry no data. *)
#[local] Unset Elimination Schemes.
Inductive yaml : Type :=
| YScalar (s : string)
| YSeq (items : list yaml)
| YMap (entries : list (string * yaml)).
#[local] Set Elimination Schemes.

Definition dquote : string := String "034"%char "".

(** The pipeline file, key by key. *)
Definition pipeline : yaml :=
  YMap
    [ ("pr", YSeq [YScalar "main"; YScalar "staging"]);
      ("trigger", YSeq [YScalar "staging"; YScalar "main"]);
      ("variables", YSeq [YMap [("group", YScalar "LinuxAgentPool")]]);
      ("extends",
       YMap
         [ ("template", YScalar "dsvm_linux_template.yml");
           ("parameters",
            YMap
              [ ("test_types", YSeq [YScalar "unit"]);
                ("task_name", YScalar "Test - Unit Notebook Linux GPU");
                ("conda_env", YScalar "unit_notebook_linux_gpu");
                ("conda_opts",
                 YScalar ("python=3.6 cudatoolkit=10.0 " +:+ dquote +:+ "cudnn>=7.6" +:+ dquote));
                ("pip_opts",
                 YScalar "[gpu,examples]  -f https://download.pytorch.org/whl/cu100/torch_stable.html");
                ("pytest_markers", YScalar "notebooks and not spark and gpu") ]) ]) ].

(** Queries on a document. *)
Definition keys (y : yaml) : list string :=
  match y with
  | YMap entries => map fst entries
  | _ => []
  end.

Fixpoint assoc (k : string) (entries : list (string * yaml)) : option yaml :=
  match entries with
  | [] => None
  | (k', v) :: rest => if String.eqb k k' then Some v else assoc k rest
  end.

Definition get (k : string) (y : yaml) : option yaml :=
  match y with
  | YMap entries => assoc k entries
  | _ => None
  end.

Fixpoint get_path (ks : list string) (y : yaml) : option yaml :=
  match ks with
  | [] => Some y
  | k :: ks' => match get k y with
                | Some v => get_path ks' v
                | None => None
                end
  end.

(** A sequence of plain scalars, as a list of strings. *)
Fixpoint scalars_of (items : list yaml) : option (list string) :=
  match items with
  | [] => Some []
  | YScalar s :: rest => option_map (cons s) (scalars_of rest)
  | _ :: _ => None
  end.

Definition branches (k : string) (y : yaml) : option (list string) :=
  match get k y with
  | Some (YSeq items) => scalars_of items
  | _ => None
  end.

(** Variable groups referenced by the [variables] section. *)
Fixpoint groups_of (items : list yaml) : list string :=
  match items with
  | [] => []
  | YMap [("group", YScalar g)] :: rest => g :: groups_of rest
  | _ :: rest => groups_of rest
  end.

Definition variable_groups (y : yaml) : list string :=
  match get "variables" y with
  | Some (YSeq items) => groups_of items
  | _ => []
  end.

Definition variable_entries (y : yaml) : nat :=
  match get "variables" y with
  | Some (YSeq items) => length items
  | _ => O
  end.

(** Keys under which Azure Pipelines places work to execute. *)
Definition executable_keys : list string :=
  ["stages"; "jobs"; "steps"; "script"; "bash"; "pwsh"; "powershell"; "task"; "pool"].

Definition mentions (k : string) (y : yaml) : bool :=
  match get k y with Some _ => true | None => false end.

(** A parameter value is data when it is a scalar or a sequence of scalars. *)
Definition is_data (y : yaml) : bool :=
  match y with
  | YScalar _ => true
  | YSeq items => match scalars_of items with Some _ => true | None => false end
  | YMap _ => false
  end.

Definition parameters_are_data (y : yaml) : bool :=
  match get_path ["extends"; "parameters"] y with
  | Some (YMap entries) => forallb (fun kv => is_data (snd kv)) entries
  | _ => false
  end.

End Pipeline.

(* ===================================================================== *)
(** * Python: values, exceptions, the execution monad, path strings      *)
(* ===================================================================== *)

Module Py.

(** An exception object, identified by its class ([KeyboardInterrupt] and
    [SystemExit] included: a bare [except:] catches those too). *)
Inductive exn : Type := Exception (cls : string).

(** The values that travel between the notebook, the estimator's command
    line and the training script.  A float is its IEEE-754 binary64 bit
    pattern. *)
Inductive value : Type :=
| VNone
| VBool (b : bool)
| VInt (z : Z)
| VStr (s : string)
| VFloat (bits : Z)
| VDataReference.

Inductive Res (A : Type) : Type :=
| Ok (a : A)
| Raised (e : exn).
Arguments Ok {A} a.
Arguments Raised {A} e.

(** Statements run in a world [S]; effects made before an exception stay. *)
Definition M (S A : Type) : Type := S -> Res A * S.

Definition ret {S A : Type} (a : A) : M S A := fun s => (Ok a, s).

Definition bind {S A B : Type} (m : M S A) (k : A -> M S B) : M S B :=
  fun s => match m s with
           | (Ok a, s') => k a s'
           | (Raised e, s') => (Raised e, s')
           end.

Definition lift {S A : Type} (r : Res A) : M S A := fun s => (r, s).

(** [try: body / except: handler] with a bare except clause: whatever the
    body raises is discarded and the handler runs in the world the body left. *)
Definition try_except {S A : Type} (body handler : M S A) : M S A :=
  fun s => match body s with
           | (Ok a, s') => (Ok a, s')
           | (Raised _, s') => handler s'
           end.

(** [m] keeps the invariant [I] of the world, however it ends. *)
Definition preserves {S A : Type} (I : S -> Prop) (m : M S A) : Prop :=
  forall s, I s -> I (snd (m s)).

(** ** Logs of attempted calls

    A world keeps a log of the calls attempted, newest first, each with the
    exception it raised, if any.  [G] tells the calls that are made under an
    exception handler. *)

(** The call returned, or it was made under a handler. *)
Definition settled {C : Type} (G : C -> Prop) (ev : C * option exn) : Prop :=
  snd ev = None \/ G (fst ev).

(** In the events [evs] of a run with result [r], a call that raised outside
    every handler is the newest event and its exception is the result. *)
Definition uncaught_is_result {C A : Type} (G : C -> Prop) (r : Res A)
    (evs : list (C * option exn)) : Prop :=
  match evs with
  | [] => True
  | ev :: older =>
      (settled G ev \/ exists e, snd ev = Some e /\ r = Raised e)
      /\ Forall (settled G) older
  end.

(** [m] adds events to the log [tr] of the world, and leaves uncaught what
    is raised outside the handlers. *)
Definition propagates {S C A : Type} (tr : S -> list (C * option exn)) (G : C -> Prop)
    (m : M S A) : Prop :=
  forall s, exists evs,
    tr (snd (m s)) = (evs ++ tr s)%list /\ uncaught_is_result G (fst (m s)) evs.

(** [m] only makes calls in [G]. *)
Definition within {S C A : Type} (tr : S -> list (C * option exn)) (G : C -> Prop)
    (m : M S A) : Prop :=
  forall s, exists evs,
    tr (snd (m s)) = (evs ++ tr s)%list /\ Forall (fun ev => G (fst ev)) evs.

(** [str(n)] and [int(s)] for decimal integers.  [int] is modelled on plain
    decimal numerals with an optional minus sign. *)
Definition str_int (z : Z) : string := NilZero.string_of_int (Z.to_int z).

Definition int_str (s : string) : option Z := option_map Z.of_int (NilZero.int_of_string s).

(** ** POSIX path strings *)

Definition startswith_sep (s : string) : bool := String.prefix "/" s.

Fixpoint endswith_sep (s : string) : bool :=
  match s with
  | EmptyString => false
  | String c EmptyString => Ascii.eqb c "/"
  | String _ rest => endswith_sep rest
  end.

(** [os.path.join(a, b)] of [posixpath]. *)
Definition os_path_join (a b : string) : string :=
  if startswith_sep b then b
  else if String.eqb a "" || endswith_sep a then a +:+ b
  else a +:+ "/" +:+ b.

(** [os.path.join] on values: a [None] component is a [TypeError]. *)
Definition os_path_join_values (a b : value) : Res string :=
  match a, b with
  | VStr a, VStr b => Ok (os_path_join a b)
  | _, _ => Raised (Exception "TypeError")
  end.

(** The directory [d] as a prefix of the paths below it. *)
Definition as_dir (d : string) : string :=
  if endswith_sep d then d else d +:+ "/".

Fixpoint strip_prefix (p s : string) : option string :=
  match p with
  | EmptyString => Some s
  | String a p' =>
      match s with
      | EmptyString => None
      | String b s' => if Ascii.eqb a b then strip_prefix p' s' else None
      end
  end.

(** The path of [p] relative to directory [d], when [p] lies below [d]. *)
Definition relative_to (d p : string) : option string := strip_prefix (as_dir d) p.

(** [p] is the directory [d] itself or lies below it. *)
Definition in_tree (d p : string) : bool :=
  String.eqb p d || match relative_to d p with Some _ => true | None => false end.

(** Where a file below [src] lands when the tree is copied to [dst]. *)
Definition relocate (src dst p : string) : option string :=
  option_map (String.append (as_dir dst)) (relative_to src p).

End Py.

Declare Scope py_scope.
Delimit Scope py_scope with py.
Notation "x <- m ;; k" := (Py.bind m (fun x => k))
  (at level 100, m at next level, right associativity) : py_scope.
Notation "m ;; k" := (Py.bind m (fun _ => k))
  (at level 100, right associativity) : py_scope.

(* ===================================================================== *)
(** * argparse                                                            *)
(* ===================================================================== *)

Module ArgParse.
Import Py.

(** The [type=] callables used by the script. *)
Inductive arg_type : Type := type_str | type_int.

(** One [parser.add_argument(...)] call. *)
Record argument : Type := {
  option_string : string;
  type_ : arg_type;
  dest : string;
  default : value;
  help : string
}.

Definition convert (t : arg_type) (raw : string) : option value :=
  match t with
  | type_str => Some (VStr raw)
  | type_int => option_map VInt (int_str raw)
  end.

Definition find_argument (p : list argument) (name : string) : option argument :=
  List.find (fun a => String.eqb (option_string a) name) p.

Definition usage_error : exn := Exception "SystemExit".

(** The command line is a list of (option string, raw value) pairs, each
    option written out in full as declared.  A later occurrence of an option
    overrides an earlier one.  (Prefix abbreviations and the implicit
    [-h/--help] of argparse are outside this model.) *)
Fixpoint parse_known (p : list argument) (argv : list (string * string))
    (ns : gmap string value) : Res (gmap string value) :=
  match argv with
  | [] => Ok ns
  | (name, raw) :: rest =>
      match find_argument p name with
      | None => Raised usage_error
      | Some a =>
          match convert (type_ a) raw with
          | None => Raised usage_error
          | Some v => parse_known p rest (<[dest a := v]> ns)
          end
      end
  end.

(** The value of an argument that the command line did not supply: a string
    default is parsed through [type] like a command-line value; any other
    default is stored as it is. *)
Definition default_of (a : argument) : option value :=
  match default a with
  | VStr s => convert (type_ a) s
  | v => Some v
  end.

Fixpoint fill_defaults (p : list argument) (ns : gmap string value) : Res (gmap string value) :=
  match p with
  | [] => Ok ns
  | a :: rest =>
      match ns !! dest a with
      | Some _ => fill_defaults rest ns
      | None =>
          match default_of a with
          | Some v => fill_defaults rest (<[dest a := v]> ns)
          | None => Raised usage_error
          end
      end
  end.

(** [parser.parse_args()]: the namespace, attribute name to value. *)
Definition parse_args (p : list argument) (argv : list (string * string)) : Res (gmap string value) :=
  match parse_known p argv ∅ with
  | Ok ns => fill_defaults p ns
  | Raised e => Raised e
  end.

(** Reading an attribute of the namespace. *)
Definition attr (ns : gmap string value) (name : string) : Res value :=
  match ns !! name with
  | Some v => Ok v
  | None => Raised (Exception "AttributeError")
  end.

End ArgParse.

(* ===================================================================== *)
(** * The generated training script, train.py                             *)
(* ===================================================================== *)

Module TrainScript.
Import Py ArgParse.
Local Open Scope py_scope.

(** A pandas dataframe: column names and rows. *)
Record dataframe : Type := {
  columns : list string;
  rows : list (list value)
}.

(** ** Module-level constants of the script *)

Definition TARGET_DIR : string := "movielens".
Definition OUTPUT_FILE_NAME : string := "outputs/movielens_sar_model.pkl".
Definition MODEL_FILE_NAME : string := "movielens_sar_model.pkl".

(** The four [parser.add_argument] calls, in order. *)
Definition parser : list argument :=
  [ {| option_string := "--data-folder"; type_ := type_str; dest := "data_folder";
       default := VNone; help := "data folder mounting point" |};
    {| option_string := "--data-file"; type_ := type_str; dest := "data_file";
       default := VNone; help := "data file name" |};
    {| option_string := "--top-k"; type_ := type_int; dest := "top_k";
       default := VInt 10; help := "top k items to recommend" |};
    {| option_string := "--data-size"; type_ := type_str; dest := "data_size";
       default := VInt 10; help := "Movielens data size: 100k, 1m, 10m, or 20m" |} ].

(** The sizes that the help text (and the notebook) document. *)
Definition documented_sizes : list value := [VStr "100k"; VStr "1m"; VStr "10m"; VStr "20m"].

(** The [header] dict: fixed keys. *)
Record Header : Type := {
  col_user : string;
  col_item : string;
  col_rating : string;
  col_timestamp : string
}.

Definition header : Header :=
  {| col_user := "UserId"; col_item := "MovieId";
     col_rating := "Rating"; col_timestamp := "Timestamp" |}.

(** 0.75 as a binary64 bit pattern. *)
Definition ratio_0_75 : Z := 0x3FE8000000000000.

(** ** Calls made by the script *)

Inductive call : Type :=
| import_ (module : string)
| logging_basicConfig (level format : string)
| Run_get_context
| pd_read_pickle (path : string)
| run_log (name : string) (v : value)
| python_stratified_split (ratio : Z) (col_user col_item : string) (seed : option Z)
| SARSingleNode_ (similarity_type : string) (time_decay_coefficient : Z) (time_now : value)
    (timedecay_formula : bool) (h : Header)
| model_fit
| model_recommend_k_items (remove_seen : bool)
| evaluation (metric : string) (col_user col_item col_rating col_prediction relevancy_method : string)
    (k : value)
| joblib_dump (filename : string)
| run_upload_file (name path_or_stream : string).

(** The compute node: which calls raise, where the datastore is mounted, and
    what the libraries compute. *)
Record Env : Type := {
  fails : call -> option exn;
  mount_point : string;
  read_pickle : string -> dataframe;
  (** [python_stratified_split] given the state of the process-wide random
      generator, the data, the ratio, the two column names and the seed *)
  stratified_split : Z -> dataframe -> Z -> string -> string -> option Z -> dataframe * dataframe;
  recommend_k_items : dataframe -> dataframe -> bool -> dataframe;
  evaluate : string -> dataframe -> dataframe -> value -> Z;
  (** [t.interval] of the n-th [Timer] block *)
  interval : nat -> Z;
  (** state of the process-wide random generator when the script starts *)
  entropy : Z
}.

(** Modelled from the spec: [python_stratified_split] of
    [reco_utils.dataset.python_splitters] is not among the sources.  Its
    contract is what the claim about the split step takes from it: called
    with a seed, the split is a function of its arguments and does not look
    at the process-wide random generator. *)
Definition seeded_deterministic (env : Env) : Prop :=
  forall state1 state2 data ratio cu ci seed,
    stratified_split env state1 data ratio cu ci (Some seed)
    = stratified_split env state2 data ratio cu ci (Some seed).

Record World : Type := {
  rfiles : gset string;                (* files visible on the node *)
  logged : list (string * value);      (* metrics logged to the run, oldest first *)
  rlog : list (call * option exn);     (* calls attempted, newest first *)
  rng : Z                              (* process-wide random generator *)
}.

Definition record (c : call) (o : option exn) (w : World) : World :=
  {| rfiles := rfiles w; logged := logged w; rlog := (c, o) :: rlog w; rng := rng w |}.

Definition effect (c : call) (w : World) : World :=
  match c with
  | run_log name v =>
      {| rfiles := rfiles w; logged := logged w ++ [(name, v)]; rlog := rlog w; rng := rng w |}
  | joblib_dump filename =>
      {| rfiles := {[filename]} ∪ rfiles w; logged := logged w; rlog := rlog w; rng := rng w |}
  | _ => w
  end.

(** The script has no [try:] block: no call is made under a handler. *)
Definition no_handler (c : call) : Prop := False.

Section Script.
Variable env : Env.

Definition lib (c : call) : M World unit :=
  fun w => match fails env c with
           | Some e => (Raised e, record c (Some e) w)
           | None => (Ok tt, effect c (record c None w))
           end.

(** [pd.read_pickle(path=...)]: a missing file is a [FileNotFoundError]. *)
Definition read_data (path : string) : M World dataframe :=
  fun w => if decide (path ∈ rfiles w)
           then bind (lib (pd_read_pickle path)) (fun _ => ret (read_pickle env path)) w
           else (Raised (Exception "FileNotFoundError"),
                 record (pd_read_pickle path) (Some (Exception "FileNotFoundError")) w).

(** [with Timer() as t: body].  The timer's [__exit__] returns [None], so an
    exception of the body leaves the block as it is; [n] numbers the block. *)
Definition with_Timer {A : Type} (n : nat) (body : M World A) : M World (A * Z) :=
  a <- body ;; ret (a, interval env n).

Definition imports : M World unit :=
  lib (import_ "argparse") ;;
  lib (import_ "os") ;;
  lib (import_ "numpy") ;;
  lib (import_ "pandas") ;;
  lib (import_ "itertools") ;;
  lib (import_ "logging") ;;
  lib (import_ "azureml.core") ;;
  lib (import_ "sklearn.externals") ;;
  lib (import_ "reco_utils.common.timer") ;;
  lib (import_ "reco_utils.dataset") ;;
  lib (import_ "reco_utils.dataset.python_splitters") ;;
  lib (import_ "reco_utils.evaluation.python_evaluation") ;;
  lib (import_ "reco_utils.recommender.sar.sar_singlenode").

(** [data_pickle_path = os.path.join(args.data_folder, args.data_file)] *)
Definition data_pickle_path (args : gmap string value) : Res string :=
  match attr args "data_folder", attr args "data_file" with
  | Ok folder, Ok file => os_path_join_values folder file
  | Raised e, _ => Raised e
  | _, Raised e => Raised e
  end.

(** [train, test = python_stratified_split(data, ratio=0.75, col_user=...,
    col_item=..., seed=42)] *)
Definition split_step (data : dataframe) : M World (dataframe * dataframe) :=
  lib (python_stratified_split ratio_0_75 (col_user header) (col_item header) (Some 42)) ;;
  (fun w => (Ok (stratified_split env (rng w) data ratio_0_75
                   (col_user header) (col_item header) (Some 42)), w)).

Definition eval_at_k (metric : string) (test top_k : dataframe) (k : value) : M World value :=
  lib (evaluation metric "UserId" "MovieId" "Rating" "prediction" "top_k" k) ;;
  ret (VFloat (evaluate env metric test top_k k)).

(** The script, top to bottom, run with command line [argv]. *)
Definition train_py (argv : list (string * string)) : M World unit :=
  imports ;;
  lib (logging_basicConfig "DEBUG" "%(asctime)s %(levelname)-8s %(message)s") ;;
  lib Run_get_context ;;
  args <- lift (parse_args parser argv) ;;
  path <- lift (data_pickle_path args) ;;
  data <- read_data path ;;
  top_k_arg <- lift (attr args "top_k") ;;
  data_size_arg <- lift (attr args "data_size") ;;
  lib (run_log "top-k" top_k_arg) ;;
  lib (run_log "data-size" data_size_arg) ;;
  split <- split_step data ;;
  let train := fst split in
  let test := snd split in
  lib (SARSingleNode_ "jaccard" 30 VNone true header) ;;
  t <- with_Timer 0 (lib model_fit) ;;
  lib (run_log "Training time" (VFloat (snd t))) ;;
  t <- with_Timer 1 (lib (model_recommend_k_items true) ;;
                     ret (recommend_k_items env train test true)) ;;
  let top_k := fst t in
  lib (run_log "Prediction time" (VFloat (snd t))) ;;
  eval_map <- eval_at_k "map_at_k" test top_k top_k_arg ;;
  eval_ndcg <- eval_at_k "ndcg_at_k" test top_k top_k_arg ;;
  eval_precision <- eval_at_k "precision_at_k" test top_k top_k_arg ;;
  eval_recall <- eval_at_k "recall_at_k" test top_k top_k_arg ;;
  lib (run_log "map" eval_map) ;;
  lib (run_log "ndcg" eval_ndcg) ;;
  lib (run_log "precision" eval_precision) ;;
  lib (run_log "recall" eval_recall) ;;
  lib (joblib_dump MODEL_FILE_NAME) ;;
  lib (run_upload_file OUTPUT_FILE_NAME MODEL_FILE_NAME).

End Script.

(** A node on which the script has not started. *)
Definition boot (env : Env) (files : gset string) : World :=
  {| rfiles := files; logged := []; rlog := []; rng := entropy env |}.

End TrainScript.

(* ===================================================================== *)
(** * The notebook                                                        *)
(* ===================================================================== *)

Module Notebook.
Import Py.
Local Open Scope py_scope.

(** ** SDK objects held in notebook variables *)

Record Workspace : Type := {
  ws_name : string;
  ws_subscription_id : string;
  ws_resource_group : string;
  ws_location : string
}.

Record TemporaryDirectory : Type := { name : string }.

Record Datastore : Type := { ds_workspace : Workspace }.

Record ProvisioningConfiguration : Type := {
  vm_size : string;
  min_nodes : Z;
  max_nodes : Z
}.

Record ComputeTarget : Type := {
  ct_workspace : Workspace;
  ct_name : string
}.

Record Estimator : Type := {
  est_source_directory : string;
  est_script_params : list (string * value);
  est_compute_target : ComputeTarget;
  est_entry_script : string;
  est_conda_packages : list string;
  est_pip_packages : list string
}.

Record Experiment : Type := {
  exp_workspace : Workspace;
  exp_name : string
}.

Record Run : Type := {
  run_experiment : Experiment;
  run_config : Estimator
}.

(** The parameters cell. *)
Record Parameters : Type := {
  TOP_K : Z;
  MOVIELENS_DATA_SIZE : string
}.

(** ** Calls made by the notebook, with their evaluated arguments *)

Inductive call : Type :=
| import_ (module : string)
| sys_path_append (p : string)
| print (s : string)
| Workspace_create (name subscription_id resource_group location : string) (exist_ok : bool)
| tempfile_TemporaryDirectory
| movielens_load_pandas_df (size : string) (header : list string)
| data_to_pickle (path : string)
| ws_get_default_datastore
| ds_upload (src_dir target_path : string) (overwrite show_progress : bool)
| ComputeTarget_ (workspace : Workspace) (name : string)
| AmlCompute_provisioning_configuration (vm_size : string) (min_nodes max_nodes : Z)
| ComputeTarget_create (workspace : Workspace) (name : string) (cfg : ProvisioningConfiguration)
| compute_target_wait_for_completion (show_output : bool) (min_node_count : value)
    (timeout_in_minutes : Z)
| os_makedirs (path : string) (exist_ok : bool)
| writefile (path : string)
| shutil_rmtree (path : string)
| shutil_copytree (src dst : string)
| ds_as_mount
| Estimator_ (est : Estimator)
| Experiment_ (workspace : Workspace) (name : string)
| exp_submit (config : Estimator)
| RunDetails_show
| display (variable : string)
| run_get_metrics
| tmp_dir_cleanup (dir : string).

(** The phases of the walkthrough, in the order of the narrative. *)
Inductive step : Type :=
| WorkspaceCreation
| DatasetUpload
| ComputeTargetAcquisition
| ScriptGeneration
| EstimatorSubmission
| RunMonitoring
| MetricRetrieval
| Cleanup.

Definition all_steps : list step :=
  [ WorkspaceCreation; DatasetUpload; ComputeTargetAcquisition; ScriptGeneration;
    EstimatorSubmission; RunMonitoring; MetricRetrieval; Cleanup ].

Definition step_eqb (a b : step) : bool :=
  match a, b with
  | WorkspaceCreation, WorkspaceCreation | DatasetUpload, DatasetUpload
  | ComputeTargetAcquisition, ComputeTargetAcquisition | ScriptGeneration, ScriptGeneration
  | EstimatorSubmission, EstimatorSubmission | RunMonitoring, RunMonitoring
  | MetricRetrieval, MetricRetrieval | Cleanup, Cleanup => true
  | _, _ => false
  end.

(** The environment of one execution: which calls raise and with what, the
    directory that [TemporaryDirectory()] creates, the SDK version, the
    compute node that runs the submitted job, and how many of the job's
    metric records have reached the service when [run.get_metrics()] asks. *)
Record Env : Type := {
  fails : call -> option exn;
  tmp_name : string;
  azureml_core_VERSION : string;
  node : TrainScript.Env;
  (** The job runs on its own: "Like the run submission, the widget is
      asynchronous" (cell 21); "run below after run is complete, otherwise
      metrics is empty" (cell 26). *)
  metrics_visible : nat
}.

Record World : Type := {
  fs : gset string;                  (* local files and directories, by path *)
  blobs : gset string;               (* blobs of the workspace's default datastore *)
  log : list (call * option exn)     (* calls attempted, newest first *)
}.

(** Calls in the order in which they were attempted. *)
Definition trace (w : World) : list (call * option exn) := rev (log w).

Definition record (c : call) (o : option exn) (w : World) : World :=
  {| fs := fs w; blobs := blobs w; log := (c, o) :: log w |}.

Definition set_fs (f : gset string) (w : World) : World :=
  {| fs := f; blobs := blobs w; log := log w |}.

Definition set_blobs (b : gset string) (w : World) : World :=
  {| fs := fs w; blobs := b; log := log w |}.

(** The paths of [files] that are [d] or below it. *)
Definition tree (d : string) (files : gset string) : gset string :=
  filter (fun p => in_tree d p = true) files.

(** The blobs that uploading directory [src] to [target] creates. *)
Definition uploaded (src target : string) (files : gset string) : gset string :=
  set_omap (relocate src target) files.

(** The paths that copying the tree [src] to [dst] creates. *)
Definition copied (src dst : string) (files : gset string) : gset string :=
  {[dst]} ∪ set_omap (relocate src dst) files.

(** What a call that succeeds does to local files and to the datastore.
    SDK calls other than the upload leave both alone. *)
Definition effect (tmp : string) (c : call) (w : World) : World :=
  match c with
  | tempfile_TemporaryDirectory => set_fs ({[tmp]} ∪ fs w) w
  | data_to_pickle path => set_fs ({[path]} ∪ fs w) w
  | ds_upload src target _ _ => set_blobs (uploaded src target (fs w) ∪ blobs w) w
  | os_makedirs path _ => set_fs ({[path]} ∪ fs w) w
  | writefile path => set_fs ({[path]} ∪ fs w) w
  | shutil_rmtree path => set_fs (fs w ∖ tree path (fs w)) w
  | shutil_copytree src dst => set_fs (copied src dst (fs w) ∪ fs w) w
  | tmp_dir_cleanup dir => set_fs (fs w ∖ tree dir (fs w)) w
  | _ => w
  end.

(** The phase a call belongs to; imports, prints, cell displays and the
    creation of the temporary directory belong to none. *)
Definition step_of (c : call) : option step :=
  match c with
  | Workspace_create _ _ _ _ _ => Some WorkspaceCreation
  | movielens_load_pandas_df _ _ | data_to_pickle _
  | ws_get_default_datastore | ds_upload _ _ _ _ => Some DatasetUpload
  | ComputeTarget_ _ _ | AmlCompute_provisioning_configuration _ _ _
  | ComputeTarget_create _ _ _ | compute_target_wait_for_completion _ _ _ =>
      Some ComputeTargetAcquisition
  | os_makedirs _ _ | writefile _ | shutil_rmtree _ | shutil_copytree _ _ => Some ScriptGeneration
  | ds_as_mount | Estimator_ _ | Experiment_ _ _ | exp_submit _ => Some EstimatorSubmission
  | RunDetails_show => Some RunMonitoring
  | run_get_metrics => Some MetricRetrieval
  | tmp_dir_cleanup _ => Some Cleanup
  | _ => None
  end.

(** The phases a run went through: the phases of its calls in order of
    execution, consecutive calls of one phase counted once. *)
Fixpoint compress (l : list step) : list step :=
  match l with
  | [] => []
  | a :: rest =>
      match rest with
      | b :: _ => if step_eqb a b then compress rest else a :: compress rest
      | [] => [a]
      end
  end.

Definition phases (w : World) : list step :=
  compress (omap (fun ev => step_of (fst ev)) (trace w)).

Fixpoint is_prefix (a b : list step) : bool :=
  match a, b with
  | [], _ => true
  | x :: a', y :: b' => step_eqb x y && is_prefix a' b'
  | _ :: _, [] => false
  end.

(** Kinds of calls. *)
Definition is_create (c : call) : bool :=
  match c with ComputeTarget_create _ _ _ => true | _ => false end.

Definition is_wait (c : call) : bool :=
  match c with compute_target_wait_for_completion _ _ _ => true | _ => false end.

Definition is_submit (c : call) : bool :=
  match c with exp_submit _ => true | _ => false end.

(** In the chronological list [l], each call of kind [a] that returned is
    followed at once by a call of kind [b]. *)
Fixpoint followed_at_once (a b : call -> bool) (l : list (call * option exn)) : bool :=
  match l with
  | [] => true
  | (c, o) :: rest =>
      match o, a c with
      | None, true =>
          match rest with
          | (c', _) :: _ => b c'
          | [] => false
          end
      | _, _ => true
      end && followed_at_once a b rest
  end.

(** In the chronological list [l], each call of kind [b] comes right after
    a call of kind [a] that returned; [prev] is the event before [l]. *)
Fixpoint preceded_at_once (a b : call -> bool) (prev : option (call * option exn))
    (l : list (call * option exn)) : bool :=
  match l with
  | [] => true
  | (c, o) :: rest =>
      (if b c
       then match prev with
            | Some (c', None) => a c'
            | _ => false
            end
       else true)
      && preceded_at_once a b (Some (c, o)) rest
  end.

(** In the chronological list [l], no call of kind [b] comes after a call of
    kind [a]. *)
Fixpoint never_after (a b : call -> bool) (l : list (call * option exn)) : bool :=
  match l with
  | [] => true
  | (c, _) :: rest =>
      (if a c then forallb (fun ev => negb (b (fst ev))) rest else true)
      && never_after a b rest
  end.

(** ** The code cells *)

Section Cells.
Variable env : Env.

(** A call into a library or the operating system. *)
Definition sdk (c : call) : M World unit :=
  fun w => match fails env c with
           | Some e => (Raised e, record c (Some e) w)
           | None => (Ok tt, effect (tmp_name env) c (record c None w))
           end.

(** [os.path.exists(path)]: answers from the file system, never raises. *)
Definition os_path_exists (path : string) : M World bool :=
  fun w => (Ok (bool_decide (path ∈ fs w)), w).

(** cell 2: imports and the version banner *)
Definition cell_imports : M World unit :=
  sdk (import_ "sys") ;;
  sdk (sys_path_append "../../") ;;
  sdk (import_ "os") ;;
  sdk (import_ "shutil") ;;
  sdk (import_ "numpy") ;;
  sdk (import_ "tempfile") ;;
  sdk (import_ "azureml") ;;
  sdk (import_ "azureml.core") ;;
  sdk (import_ "azureml.core.compute") ;;
  sdk (import_ "azureml.train.estimator") ;;
  sdk (import_ "azureml.widgets") ;;
  sdk (import_ "reco_utils.dataset") ;;
  sdk (print ("azureml.core version: " +:+ azureml_core_VERSION env)).

(** cell 3: parameters *)
Definition cell_parameters : M World Parameters :=
  ret {| TOP_K := 10; MOVIELENS_DATA_SIZE := "100k" |}.

(** cell 5: [ws = Workspace.create(...)] *)
Definition cell_workspace : M World Workspace :=
  sdk (Workspace_create "<WORKSPACE_NAME>" "<SUBSCRIPTION_ID>" "<RESOURCE_GROUP>"
         "<WORKSPACE_REGION>" true) ;;
  ret {| ws_name := "<WORKSPACE_NAME>"; ws_subscription_id := "<SUBSCRIPTION_ID>";
         ws_resource_group := "<RESOURCE_GROUP>"; ws_location := "<WORKSPACE_REGION>" |}.

(** cell 7: [tmp_dir = TemporaryDirectory()] *)
Definition cell_tmp_dir : M World TemporaryDirectory :=
  sdk tempfile_TemporaryDirectory ;;
  ret {| name := tmp_name env |}.

Definition TARGET_DIR : string := "movielens".

Definition data_file_name (p : Parameters) : string :=
  "movielens_" +:+ MOVIELENS_DATA_SIZE p +:+ "_data.pkl".

(** cell 9: download the dataset, pickle it into the temporary directory,
    upload the directory to the default datastore *)
Definition cell_upload (p : Parameters) (ws : Workspace) (tmp_dir : TemporaryDirectory)
    : M World Datastore :=
  sdk (movielens_load_pandas_df (MOVIELENS_DATA_SIZE p)
         ["UserId"; "MovieId"; "Rating"; "Timestamp"]) ;;
  sdk (data_to_pickle (os_path_join (name tmp_dir) (data_file_name p))) ;;
  sdk ws_get_default_datastore ;;
  let ds := {| ds_workspace := ws |} in
  sdk (ds_upload (name tmp_dir) TARGET_DIR true false) ;;
  ret ds.

Definition VM_SIZE : string := "STANDARD_D2_V2".
Definition MIN_NODES : Z := 0.
Definition MAX_NODES : Z := 2.
Definition CLUSTER_NAME : string := "cpucluster".

(** cell 11, the body of [try:] *)
Definition lookup_compute_target (ws : Workspace) : M World ComputeTarget :=
  sdk (ComputeTarget_ ws CLUSTER_NAME) ;;
  sdk (print "Found existing compute target") ;;
  ret {| ct_workspace := ws; ct_name := CLUSTER_NAME |}.

(** The calls of the [try:] body, the only ones made under a handler. *)
Definition in_try (c : call) : Prop :=
  match c with
  | ComputeTarget_ _ cluster => cluster = CLUSTER_NAME
  | print s => s = "Found existing compute target"
  | _ => False
  end.

(** cell 11, the body of [except:] *)
Definition provision_compute_target (ws : Workspace) : M World ComputeTarget :=
  sdk (print "Creating a new compute target...") ;;
  sdk (AmlCompute_provisioning_configuration VM_SIZE MIN_NODES MAX_NODES) ;;
  let compute_config :=
    {| vm_size := VM_SIZE; min_nodes := MIN_NODES; max_nodes := MAX_NODES |} in
  sdk (ComputeTarget_create ws CLUSTER_NAME compute_config) ;;
  let compute_target := {| ct_workspace := ws; ct_name := CLUSTER_NAME |} in
  sdk (compute_target_wait_for_completion true VNone 20) ;;
  ret compute_target.

(** cell 11: find the cluster or create it *)
Definition cell_compute_target (ws : Workspace) : M World ComputeTarget :=
  try_except (lookup_compute_target ws) (provision_compute_target ws).

Definition SCRIPT_DIR (tmp_dir : TemporaryDirectory) : string :=
  os_path_join (name tmp_dir) "movielens-sar".

Definition TRAIN_FILE (tmp_dir : TemporaryDirectory) : string :=
  os_path_join (SCRIPT_DIR tmp_dir) "train.py".

(** cell 13: the script directory *)
Definition cell_script_dir (tmp_dir : TemporaryDirectory) : M World unit :=
  sdk (os_makedirs (SCRIPT_DIR tmp_dir) true).

(** cell 15: [%%writefile $TRAIN_FILE] *)
Definition cell_writefile (tmp_dir : TemporaryDirectory) : M World unit :=
  sdk (writefile (TRAIN_FILE tmp_dir)).

Definition UTILS_DIR (tmp_dir : TemporaryDirectory) : string :=
  os_path_join (SCRIPT_DIR tmp_dir) "reco_utils".

(** cell 16: copy [reco_utils] next to the script *)
Definition cell_copy_utils (tmp_dir : TemporaryDirectory) : M World unit :=
  present <- os_path_exists (UTILS_DIR tmp_dir) ;;
  (if present : bool then sdk (shutil_rmtree (UTILS_DIR tmp_dir)) else ret tt) ;;
  sdk (shutil_copytree "../../reco_utils/" (UTILS_DIR tmp_dir)).

(** cell 18: the [script_params] dict, given the value of [ds.as_mount()] *)
Definition script_params (p : Parameters) (mount : value) : list (string * value) :=
  [ ("--data-folder", mount);
    ("--data-file", VStr ("movielens/" +:+ data_file_name p));
    ("--top-k", VInt (TOP_K p));
    ("--data-size", VStr (MOVIELENS_DATA_SIZE p)) ].

(** cell 18: the estimator *)
Definition cell_estimator (p : Parameters) (tmp_dir : TemporaryDirectory) (ds : Datastore)
    (compute_target : ComputeTarget) : M World Estimator :=
  sdk ds_as_mount ;;
  let est :=
    {| est_source_directory := SCRIPT_DIR tmp_dir;
       est_script_params := script_params p VDataReference;
       est_compute_target := compute_target;
       est_entry_script := "train.py";
       est_conda_packages := ["pandas"];
       est_pip_packages := ["sklearn"; "tqdm"] |} in
  sdk (Estimator_ est) ;;
  ret est.

Definition EXPERIMENT_NAME : string := "movielens-sar".

(** cell 20: submit; [exp.submit] hands back the run without waiting for it *)
Definition cell_submit (ws : Workspace) (est : Estimator) : M World Run :=
  sdk (Experiment_ ws EXPERIMENT_NAME) ;;
  let exp := {| exp_workspace := ws; exp_name := EXPERIMENT_NAME |} in
  sdk (exp_submit est) ;;
  ret {| run_experiment := exp; run_config := est |}.

(** cells 22 and 24: the widget and the run's summary *)
Definition cell_monitor (run : Run) : M World unit :=
  sdk RunDetails_show ;;
  sdk (display "run").

(** ** The submitted job *)

(** How a script parameter reaches the command line of the job: text as it
    is, an integer through [str], the data reference as the path at which
    the datastore is mounted on the node. *)
Definition render (v : value) : option string :=
  match v with
  | VStr s => Some s
  | VInt z => Some (str_int z)
  | VDataReference => Some (TrainScript.mount_point (node env))
  | _ => None
  end.

Fixpoint job_argv (params : list (string * value)) : option (list (string * string)) :=
  match params with
  | [] => Some []
  | (k, v) :: rest =>
      match render v, job_argv rest with
      | Some raw, Some argv => Some ((k, raw) :: argv)
      | _, _ => None
      end
  end.

(** The datastore as the node sees it under the mount point. *)
Definition mounted (b : gset string) : gset string :=
  set_map (os_path_join (TrainScript.mount_point (node env))) b.

Definition job_world (w : World) : TrainScript.World :=
  TrainScript.boot (node env) (mounted (blobs w)).

(** The run of [train.py] on the node, to its end. *)
Definition job (run : Run) (w : World) : option (Res unit * TrainScript.World) :=
  match job_argv (est_script_params (run_config run)) with
  | Some argv => Some (TrainScript.train_py (node env) argv (job_world w))
  | None => None
  end.

(** Everything the job logs by the time it ends. *)
Definition job_metrics (run : Run) (w : World) : list (string * value) :=
  match job run w with
  | Some (_, rw) => TrainScript.logged rw
  | None => []
  end.

(** cell 26: [metrics = run.get_metrics()]: the records that have reached
    the service so far *)
Definition cell_metrics (run : Run) : M World (list (string * value)) :=
  sdk run_get_metrics ;;
  metrics <- (fun w => (Ok (firstn (metrics_visible env) (job_metrics run w)), w)) ;;
  sdk (display "metrics") ;;
  ret metrics.

(** cell 29: [tmp_dir.cleanup()] *)
Definition cell_cleanup (tmp_dir : TemporaryDirectory) : M World unit :=
  sdk (tmp_dir_cleanup (name tmp_dir)).

(** The code cells after the parameters cell, top to bottom. *)
Definition notebook_from (p : Parameters) : M World (Run * list (string * value)) :=
  ws <- cell_workspace ;;
  tmp_dir <- cell_tmp_dir ;;
  ds <- cell_upload p ws tmp_dir ;;
  compute_target <- cell_compute_target ws ;;
  cell_script_dir tmp_dir ;;
  cell_writefile tmp_dir ;;
  cell_copy_utils tmp_dir ;;
  est <- cell_estimator p tmp_dir ds compute_target ;;
  run <- cell_submit ws est ;;
  cell_monitor run ;;
  metrics <- cell_metrics run ;;
  cell_cleanup tmp_dir ;;
  ret (run, metrics).

(** All code cells, top to bottom. *)
Definition notebook : M World (Run * list (string * value)) :=
  cell_imports ;;
  p <- cell_parameters ;;
  notebook_from p.

End Cells.

(** The local paths that a call creates or removes all lie in the tree of
    directory [d]. *)
Definition local_to (d : string) (c : call) : Prop :=
  match c with
  | data_to_pickle path | os_makedirs path _ | writefile path
  | shutil_rmtree path | tmp_dir_cleanup path => in_tree d path = true
  | shutil_copytree _ dst => in_tree d dst = true
  | _ => True
  end.

(** Outside the tree of [d] the local files are those of [files]. *)
Definition outside_unchanged (d : string) (files : gset string) (w : World) : Prop :=
  forall p, in_tree d p = false -> (p ∈ fs w <-> p ∈ files).

(** A machine on which nothing has run yet. *)
Definition start (files : gset string) : World :=
  {| fs := files; blobs := ∅; log := [] |}.

End Notebook.

(* ===================================================================== *)
(** * Sample environments                                                 *)
(* ===================================================================== *)

Module Samples.
Import Py.

Definition ratings : TrainScript.dataframe :=
  {| TrainScript.columns := ["UserId"; "MovieId"; "Rating"; "Timestamp"];
     TrainScript.rows :=
       [ [VInt 196; VInt 242; VFloat 0x4008000000000000; VInt 881250949];
         [VInt 186; VInt 302; VFloat 0x4008000000000000; VInt 891717742];
         [VInt 22; VInt 377; VFloat 0x3FF0000000000000; VInt 878887116];
         [VInt 244; VInt 51; VFloat 0x4000000000000000; VInt 880606923] ] |}.

(** A splitter that cuts after the first [n] rows, where [n] comes from the
    seed when there is one and from the process-wide generator otherwise. *)
Definition cut (state : Z) (data : TrainScript.dataframe) (ratio : Z) (col_user col_item : string)
    (seed : option Z) : TrainScript.dataframe * TrainScript.dataframe :=
  let n := Z.to_nat (match seed with Some s => s | None => state end
                       mod (Z.of_nat (length (TrainScript.rows data)) + 1)) in
  ({| TrainScript.columns := TrainScript.columns data;
      TrainScript.rows := firstn n (TrainScript.rows data) |},
   {| TrainScript.columns := TrainScript.columns data;
      TrainScript.rows := skipn n (TrainScript.rows data) |}).

Definition node (answers : TrainScript.call -> option exn) : TrainScript.Env :=
  {| TrainScript.fails := answers;
     TrainScript.mount_point := "/mnt/batch/tasks/shared/workspaceblobstore";
     TrainScript.read_pickle := fun _ => ratings;
     TrainScript.stratified_split := cut;
     TrainScript.recommend_k_items := fun _ test _ => test;
     TrainScript.evaluate := fun _ _ _ _ => 0x3FBC4FA8F0E2D4B5;
     TrainScript.interval := fun n => 0x3FDA1953E0A3A0A8 + Z.of_nat n;
     TrainScript.entropy := 2019 |}.

Definition machine (answers : Notebook.call -> option exn) (visible : nat) : Notebook.Env :=
  {| Notebook.fails := answers;
     Notebook.tmp_name := "/tmp/tmp6imrlt0z";
     Notebook.azureml_core_VERSION := "1.0.18";
     Notebook.node := node (fun _ => None);
     Notebook.metrics_visible := visible |}.

Definition all_succeed {C : Type} (c : C) : option exn := None.

(** The service refuses the submission. *)
Definition submission_refused (c : Notebook.call) : option exn :=
  match c with
  | Notebook.exp_submit _ => Some (Exception "ExperimentExecutionException")
  | _ => None
  end.

Definition workspace : Notebook.Workspace :=
  {| Notebook.ws_name := "<WORKSPACE_NAME>";
     Notebook.ws_subscription_id := "<SUBSCRIPTION_ID>";
     Notebook.ws_resource_group := "<RESOURCE_GROUP>";
     Notebook.ws_location := "<WORKSPACE_REGION>" |}.

(** No cluster named [cpucluster] exists yet. *)
Definition no_cluster (c : Notebook.call) : option exn :=
  match c with
  | Notebook.ComputeTarget_ _ _ => Some (Exception "ComputeTargetException")
  | _ => None
  end.

(** The repository checkout the notebook runs in. *)
Definition checkout : gset string :=
  {[ "../../reco_utils/__init__.py"; "../../reco_utils/dataset/movielens.py";
     "sar_movielens_with_azureml.ipynb" ]}.

End Samples.

(* ===================================================================== *)
(** * Checks on the calls of a run                                        *)
(* ===================================================================== *)

Module Checks.
Import Py.

(** The names under which [train.py] logs to the run, in the order of its
    [run.log] calls. *)
Definition metric_names : list string :=
  [ "top-k"; "data-size"; "Training time"; "Prediction time";
    "map"; "ndcg"; "precision"; "recall" ].

(** [a] is an initial part of [b]. *)
Fixpoint is_initial (a b : list string) : bool :=
  match a, b with
  | [], _ => true
  | x :: a', y :: b' => String.eqb x y && is_initial a' b'
  | _ :: _, [] => false
  end.

Definition is_read (ev : TrainScript.call * option exn) : bool :=
  match fst ev with TrainScript.pd_read_pickle _ => true | _ => false end.

Definition is_upload_file (ev : TrainScript.call * option exn) : bool :=
  match fst ev with TrainScript.run_upload_file _ _ => true | _ => false end.

(** The call, if it is an evaluation or the logging of [top-k], is made with
    the value [v]. *)
Definition made_with_k (v : value) (c : TrainScript.call) : Prop :=
  match c with
  | TrainScript.evaluation _ _ _ _ _ _ k => k = v
  | TrainScript.run_log name v' => if String.eqb name "top-k" then v' = v else True
  | _ => True
  end.

Fixpoint all_calls {C : Type} (P : C -> Prop) (l : list (C * option exn)) : Prop :=
  match l with
  | [] => True
  | (c, _) :: rest => P c /\ all_calls P rest
  end.

(** The first records of the log are the two arguments of the script. *)
Definition logs_arguments (args : gmap string value) (l : list (string * value)) : Prop :=
  match l with
  | [] => True
  | [(n1, v1)] => n1 = "top-k" /\ ArgParse.attr args "top_k" = Ok v1
  | (n1, v1) :: (n2, v2) :: _ =>
      n1 = "top-k" /\ ArgParse.attr args "top_k" = Ok v1
      /\ n2 = "data-size" /\ ArgParse.attr args "data_size" = Ok v2
  end.

(** The upload of the model, if the call is one, names the two files of the
    script. *)
Definition uploads_model (c : TrainScript.call) : Prop :=
  match c with
  | TrainScript.run_upload_file name path =>
      name = TrainScript.OUTPUT_FILE_NAME /\ path = TrainScript.MODEL_FILE_NAME
  | _ => True
  end.

(** Events of the notebook: the compute target is there (found, or created
    and waited for); the job was handed in; the temporary directory was
    made; the dataset was uploaded; the temporary directory was removed. *)
Definition is_ready (ev : Notebook.call * option exn) : bool :=
  match ev with
  | (Notebook.print s, None) => String.eqb s "Found existing compute target"
  | (Notebook.compute_target_wait_for_completion _ _ _, None) => true
  | _ => false
  end.

Definition is_submission (ev : Notebook.call * option exn) : bool :=
  Notebook.is_submit (fst ev).

Definition made_tmp_dir (ev : Notebook.call * option exn) : bool :=
  match ev with
  | (Notebook.tempfile_TemporaryDirectory, None) => true
  | _ => false
  end.

Definition is_upload (ev : Notebook.call * option exn) : bool :=
  match ev with
  | (Notebook.ds_upload _ _ _ _, None) => true
  | _ => false
  end.

Definition cleaned_up (ev : Notebook.call * option exn) : bool :=
  match ev with
  | (Notebook.tmp_dir_cleanup _, None) => true
  | _ => false
  end.

(** In the chronological list [l], a job is handed in only once the compute
    target is there; [ready] is what the events before [l] have shown. *)
Fixpoint submits_when_ready (ready : bool) (l : list (Notebook.call * option exn)) : bool :=
  match l with
  | [] => true
  | ev :: rest =>
      (if is_submission ev then ready else true)
      && submits_when_ready (ready || is_ready ev) rest
  end.

(** A node on which the dataset is mounted and every call succeeds, and a
    command line that names it. *)
Definition mounted_dataset : gset string := {["/mnt/data/movielens/movielens_100k_data.pkl"]}.

Definition command_line : list (string * string) :=
  [ ("--data-folder", "/mnt/data"); ("--data-file", "movielens/movielens_100k_data.pkl");
    ("--top-k", "5"); ("--data-size", "100k") ].

(** The cluster exists but the banner cannot be printed. *)
Definition banner_fails (c : Notebook.call) : option exn :=
  match c with
  | Notebook.print s =>
      if String.eqb s "Found existing compute target"
      then Some (Exception "BrokenPipeError") else None
  | _ => None
  end.

(** The dataset cannot be downloaded. *)
Definition download_fails (c : Notebook.call) : option exn :=
  match c with
  | Notebook.movielens_load_pandas_df _ _ => Some (Exception "ConnectionError")
  | _ => None
  end.

End Checks.

(* ===================================================================== *)
(** * Facts about path strings                                            *)
(* ===================================================================== *)

Module PathFacts.
Import Py.

Lemma append_cons (c : ascii) (s t : string) : String c s +:+ t = String c (s +:+ t).
Proof. reflexivity. Qed.

Lemma append_nil_l (t : string) : "" +:+ t = t.
Proof. reflexivity. Qed.

Lemma append_assoc (a b c : string) : (a +:+ b) +:+ c = a +:+ (b +:+ c).
Proof.
  induction a as [| x a IH]; [reflexivity |].
  now rewrite !append_cons, IH.
Qed.

Lemma append_eq_nil (a b : string) : a +:+ b = "" -> a = "" /\ b = "".
Proof. destruct a; [auto | rewrite append_cons; discriminate]. Qed.

Lemma strip_prefix_app (p s : string) : strip_prefix p (p +:+ s) = Some s.
Proof.
  induction p as [| c p IH]; [reflexivity |].
  rewrite append_cons. simpl. now rewrite Ascii.eqb_refl.
Qed.

Lemma strip_prefix_Some (p s r : string) : strip_prefix p s = Some r -> s = p +:+ r.
Proof.
  revert s. induction p as [| c p IH]; intros s H; simpl in *.
  - now inversion H.
  - destruct s as [| d s]; [discriminate |].
    destruct (Ascii.eqb_spec c d) as [-> | _]; [| discriminate].
    now rewrite append_cons, (IH _ H).
Qed.

Lemma endswith_sep_app (a b : string) :
  b <> "" -> endswith_sep (a +:+ b) = endswith_sep b.
Proof.
  intros Hb. induction a as [| c a IH]; [reflexivity |].
  rewrite append_cons, <- IH. simpl.
  destruct (a +:+ b) eqn:E; [| reflexivity].
  apply append_eq_nil in E. tauto.
Qed.

Lemma endswith_sep_as_dir (d : string) : endswith_sep (as_dir d) = true.
Proof.
  unfold as_dir. destruct (endswith_sep d) eqn:E; [exact E |].
  now rewrite endswith_sep_app.
Qed.

Lemma as_dir_idem (d : string) : as_dir (as_dir d) = as_dir d.
Proof. unfold as_dir at 1. now rewrite endswith_sep_as_dir. Qed.

(** Joining a relative name to a directory puts it directly below. *)
Lemma os_path_join_below (a b : string) :
  a <> "" -> startswith_sep b = false -> os_path_join a b = as_dir a +:+ b.
Proof.
  intros Ha Hb. unfold os_path_join, as_dir. rewrite Hb.
  destruct (String.eqb_spec a "") as [-> | _]; [congruence |]. simpl.
  destruct (endswith_sep a); [reflexivity |].
  now rewrite append_assoc.
Qed.

Lemma os_path_join_nonempty (a b : string) : a <> "" -> os_path_join a b <> "".
Proof.
  intros Ha. unfold os_path_join.
  destruct (startswith_sep b) eqn:Hb.
  - destruct b; [discriminate | congruence].
  - destruct (_ || _); intros E; apply append_eq_nil in E; tauto.
Qed.

Lemma relative_to_below (d r : string) : relative_to d (as_dir d +:+ r) = Some r.
Proof. apply strip_prefix_app. Qed.

Lemma in_tree_self (d : string) : in_tree d d = true.
Proof. unfold in_tree. now rewrite String.eqb_refl. Qed.

Lemma in_tree_below (d r : string) : in_tree d (as_dir d +:+ r) = true.
Proof. unfold in_tree. rewrite relative_to_below. apply orb_true_r. Qed.

Lemma in_tree_cases (d p : string) :
  in_tree d p = true -> p = d \/ exists r, p = as_dir d +:+ r.
Proof.
  unfold in_tree. intros H. apply orb_true_iff in H as [H | H].
  - left. now apply String.eqb_eq.
  - right. destruct (relative_to d p) as [r |] eqn:E; [| discriminate].
    exists r. now apply strip_prefix_Some.
Qed.

(** Below a directory that is itself in the tree of [d] is in the tree of [d]. *)
Lemma in_tree_trans (d q p : string) :
  in_tree d q = true -> in_tree q p = true -> in_tree d p = true.
Proof.
  intros Hq Hp.
  destruct (in_tree_cases _ _ Hp) as [-> | [r ->]]; [exact Hq |].
  destruct (in_tree_cases _ _ Hq) as [-> | [r' ->]]; [apply in_tree_below |].
  unfold as_dir at 1.
  destruct (endswith_sep (as_dir d +:+ r')).
  - rewrite append_assoc. apply in_tree_below.
  - rewrite !append_assoc. apply in_tree_below.
Qed.

Lemma in_tree_join (a b : string) :
  a <> "" -> startswith_sep b = false -> in_tree a (os_path_join a b) = true.
Proof. intros Ha Hb. rewrite os_path_join_below by assumption. apply in_tree_below. Qed.

Lemma relocate_in_tree (src dst p q : string) :
  relocate src dst p = Some q -> in_tree dst q = true.
Proof.
  unfold relocate. destruct (relative_to src p) as [r |]; simpl; [| discriminate].
  intros H. inversion H. apply in_tree_below.
Qed.

End PathFacts.

(* ===================================================================== *)
(** * Facts about the execution monad                                     *)
(* ===================================================================== *)

Module MonadFacts.
Import Py.

Section Laws.
Context {S : Type}.

Lemma bind_Ok {A B : Type} (m : M S A) (k : A -> M S B) (s s' : S) (a : A) :
  m s = (Ok a, s') -> bind m k s = k a s'.
Proof. unfold bind. now intros ->. Qed.

Lemma bind_Raised {A B : Type} (m : M S A) (k : A -> M S B) (s s' : S) (e : exn) :
  m s = (Raised e, s') -> bind m k s = (Raised e, s').
Proof. unfold bind. now intros ->. Qed.

(** A sequence that ends normally ran both of its parts to their ends. *)
Lemma bind_inv_Ok {A B : Type} (m : M S A) (k : A -> M S B) (s s' : S) (b : B) :
  bind m k s = (Ok b, s') ->
  exists a s1, m s = (Ok a, s1) /\ k a s1 = (Ok b, s').
Proof.
  unfold bind. destruct (m s) as [[a | e] s1]; intros H; [eauto | discriminate].
Qed.

(** An invariant of the world that each part keeps is kept by the whole,
    however the run ends. *)
Lemma preserves_ret {A : Type} (I : S -> Prop) (a : A) : preserves I (ret a).
Proof. intros s H. exact H. Qed.

Lemma preserves_lift {A : Type} (I : S -> Prop) (r : Res A) : preserves I (lift r).
Proof. intros s H. exact H. Qed.

Lemma preserves_bind {A B : Type} (I : S -> Prop) (m : M S A) (k : A -> M S B) :
  preserves I m -> (forall a, preserves I (k a)) -> preserves I (bind m k).
Proof.
  intros Hm Hk s H. unfold bind. specialize (Hm s H).
  destruct (m s) as [[a | e] s1]; simpl in *; [now apply Hk | exact Hm].
Qed.

(** The same, using what is known of the value the first part returns. *)
Lemma preserves_bind_val {A B : Type} (I : S -> Prop) (R : A -> Prop)
    (m : M S A) (k : A -> M S B) :
  preserves I m ->
  (forall s a s', m s = (Ok a, s') -> R a) ->
  (forall a, R a -> preserves I (k a)) ->
  preserves I (bind m k).
Proof.
  intros Hm HR Hk s H. unfold bind. specialize (Hm s H). specialize (HR s).
  destruct (m s) as [[a | e] s1]; simpl in *; [| exact Hm].
  apply Hk; [eapply HR; reflexivity | exact Hm].
Qed.

Lemma preserves_try_except {A : Type} (I : S -> Prop) (body handler : M S A) :
  preserves I body -> preserves I handler -> preserves I (try_except body handler).
Proof.
  intros Hb Hh s H. unfold try_except. specialize (Hb s H).
  destruct (body s) as [[a | e] s1]; simpl in *; [exact Hb | now apply Hh].
Qed.

End Laws.

End MonadFacts.

(* ===================================================================== *)
(** * The notebook and the local file system                              *)
(* ===================================================================== *)

Module FrameFacts.
Import Py Notebook PathFacts MonadFacts.

Lemma in_tree_false_trans (d q p : string) :
  in_tree d q = true -> in_tree d p = false -> in_tree q p = false.
Proof.
  intros Hq Hp. destruct (in_tree q p) eqn:E; [| reflexivity].
  rewrite (in_tree_trans _ _ _ Hq E) in Hp. discriminate.
Qed.

Lemma not_in_tree_ne (d p : string) : in_tree d p = false -> p <> d.
Proof. intros H ->. rewrite in_tree_self in H. discriminate. Qed.

Lemma elem_of_tree (d p : string) (files : gset string) :
  p ∈ tree d files <-> in_tree d p = true /\ p ∈ files.
Proof. unfold tree. now rewrite elem_of_filter. Qed.

Lemma elem_of_copied (src dst q : string) (files : gset string) :
  q ∈ copied src dst files -> in_tree dst q = true.
Proof.
  unfold copied. rewrite elem_of_union, elem_of_singleton.
  intros [-> | H]; [apply in_tree_self |].
  apply elem_of_set_omap in H as (p & _ & Hp).
  eapply relocate_in_tree, Hp.
Qed.

(** A call whose local writes stay in the tree of [d] leaves the rest of the
    file system as it was. *)
Lemma effect_outside (d : string) (files : gset string) (c : call) (w : World) :
  local_to d c -> outside_unchanged d files w -> outside_unchanged d files (effect d c w).
Proof.
  intros Hc Hw p Hp. specialize (Hw p Hp).
  pose proof (not_in_tree_ne _ _ Hp) as Hne.
  destruct c; simpl in *; try exact Hw;
    rewrite ?elem_of_union, ?elem_of_difference, ?elem_of_singleton, ?elem_of_tree.
  - tauto.
  - pose proof (not_in_tree_ne _ _ (in_tree_false_trans _ _ _ Hc Hp)). tauto.
  - pose proof (not_in_tree_ne _ _ (in_tree_false_trans _ _ _ Hc Hp)). tauto.
  - pose proof (not_in_tree_ne _ _ (in_tree_false_trans _ _ _ Hc Hp)). tauto.
  - rewrite (in_tree_false_trans _ _ _ Hc Hp). intuition congruence.
  - split; [intros [H | H] | tauto]; [| tauto].
    apply elem_of_copied in H. rewrite (in_tree_false_trans _ _ _ Hc Hp) in H. discriminate.
  - rewrite (in_tree_false_trans _ _ _ Hc Hp). intuition congruence.
Qed.

Lemma record_outside (d : string) (files : gset string) (c : call) (o : option exn) (w : World) :
  outside_unchanged d files w -> outside_unchanged d files (record c o w).
Proof. intros H. exact H. Qed.

Section Frame.
Variable env : Env.
Variable files : gset string.
Hypothesis tmp_nonempty : tmp_name env <> "".

Let I := outside_unchanged (tmp_name env) files.

Lemma sdk_outside (c : call) : local_to (tmp_name env) c -> preserves I (sdk env c).
Proof.
  intros Hc w Hw. unfold sdk. destruct (fails env c); simpl.
  - now apply record_outside.
  - now apply effect_outside, record_outside.
Qed.

Lemma pure_outside {A : Type} (f : World -> Res A) : preserves I (fun w => (f w, w)).
Proof. intros w Hw. exact Hw. Qed.

Lemma data_file_name_relative (p : Parameters) : startswith_sep (data_file_name p) = false.
Proof. reflexivity. Qed.

Lemma pickle_in_tmp (p : Parameters) :
  in_tree (tmp_name env) (os_path_join (tmp_name env) (data_file_name p)) = true.
Proof. apply in_tree_join; [exact tmp_nonempty | apply data_file_name_relative]. Qed.

Lemma script_dir_in_tmp : in_tree (tmp_name env) (SCRIPT_DIR {| name := tmp_name env |}) = true.
Proof. apply in_tree_join; [exact tmp_nonempty | reflexivity]. Qed.

Lemma script_dir_nonempty : SCRIPT_DIR {| name := tmp_name env |} <> "".
Proof. apply os_path_join_nonempty, tmp_nonempty. Qed.

Lemma train_file_in_tmp : in_tree (tmp_name env) (TRAIN_FILE {| name := tmp_name env |}) = true.
Proof.
  eapply in_tree_trans; [apply script_dir_in_tmp |].
  apply in_tree_join; [apply script_dir_nonempty | reflexivity].
Qed.

Lemma utils_dir_in_tmp : in_tree (tmp_name env) (UTILS_DIR {| name := tmp_name env |}) = true.
Proof.
  eapply in_tree_trans; [apply script_dir_in_tmp |].
  apply in_tree_join; [apply script_dir_nonempty | reflexivity].
Qed.

Ltac frame :=
  repeat first
    [ apply preserves_bind; [| intros ?]
    | apply preserves_try_except
    | apply preserves_ret
    | apply pure_outside
    | apply sdk_outside; simpl;
      first [ exact Logic.I | apply pickle_in_tmp | apply script_dir_in_tmp
            | apply train_file_in_tmp | apply utils_dir_in_tmp | apply in_tree_self ]
    | match goal with |- preserves _ (if ?b then _ else _) => destruct b end ].

(** Whatever happens, the notebook leaves alone every path outside the
    temporary directory. *)
Lemma notebook_from_outside (p : Parameters) : preserves I (notebook_from env p).
Proof.
  unfold notebook_from, cell_workspace, cell_tmp_dir, cell_upload, cell_compute_target,
    lookup_compute_target, provision_compute_target, cell_script_dir, cell_writefile,
    cell_copy_utils, cell_estimator, cell_submit, cell_monitor, cell_metrics, cell_cleanup,
    os_path_exists.
  apply preserves_bind; [frame | intros ws].
  apply preserves_bind_val with (R := fun t => t = {| name := tmp_name env |}); [frame | |].
  - intros w t w' H. apply bind_inv_Ok in H as (? & ? & _ & H). now inversion H.
  - intros ? ->. frame.
Qed.

Lemma notebook_outside : preserves I (notebook env).
Proof.
  unfold notebook.
  apply preserves_bind; [unfold cell_imports; frame | intros _].
  apply preserves_bind; [apply preserves_ret | intros p; apply notebook_from_outside].
Qed.

End Frame.

(** [tmp_dir.cleanup()] that succeeds empties the tree of the directory. *)
Lemma cleanup_empties (env : Env) (w w' : World) :
  cell_cleanup env {| name := tmp_name env |} w = (Ok tt, w') ->
  forall q, q ∈ fs w' <-> q ∈ fs w /\ in_tree (tmp_name env) q = false.
Proof.
  unfold cell_cleanup, sdk. simpl. destruct (fails env _); [discriminate |].
  intros H q. inversion H; subst w'; clear H. simpl.
  rewrite elem_of_difference, elem_of_tree.
  destruct (in_tree (tmp_name env) q); intuition congruence.
Qed.

(** A run of all cells that ends normally ended with the cleanup. *)
Lemma notebook_ends_with_cleanup (env : Env) (w w' : World)
    (v : Run * list (string * value)) :
  notebook env w = (Ok v, w') ->
  exists w1, cell_cleanup env {| name := tmp_name env |} w1 = (Ok tt, w').
Proof.
  unfold notebook, notebook_from. intros H.
  repeat (apply bind_inv_Ok in H as (? & ? & ? & H)).
  unfold cell_tmp_dir in *.
  repeat match goal with
         | H : bind _ _ _ = (Ok _, _) |- _ => apply bind_inv_Ok in H as (? & ? & ? & H)
         | H : ret _ _ = (Ok _, _) |- _ => inversion H; subst; clear H
         end.
  match goal with H : cell_cleanup _ _ ?w1 = (Ok ?u, _) |- _ => destruct u; exists w1; exact H end.
Qed.

End FrameFacts.

(* ===================================================================== *)
(** * The command line of the training script                             *)
(* ===================================================================== *)

Module ArgParseFacts.
Import Py ArgParse.

Lemma int_str_str_int (z : Z) : int_str (str_int z) = Some z.
Proof.
  unfold int_str, str_int. rewrite NilZero.isi.
  - simpl. now rewrite DecimalZ.of_to.
  - destruct z; simpl; try discriminate.
    intros H. inversion H. now apply (DecimalPos.Unsigned.to_uint_nonnil p).
  - destruct z; simpl; try discriminate.
    intros H. inversion H. now apply (DecimalPos.Unsigned.to_uint_nonnil p).
Qed.

(** The argument that an option string of [train.py] selects. *)
Lemma find_argument_parser (name : string) (a : argument) :
  find_argument TrainScript.parser name = Some a ->
  option_string a = name /\ In a TrainScript.parser.
Proof.
  unfold find_argument. intros H. apply find_some in H as [Hin Heq].
  apply String.eqb_eq in Heq. auto.
Qed.

Lemma dest_data_size (a : argument) :
  In a TrainScript.parser -> dest a = "data_size" -> option_string a = "--data-size".
Proof.
  simpl. intros [<- | [<- | [<- | [<- | []]]]]; simpl; intros H;
    [discriminate H | discriminate H | discriminate H | reflexivity].
Qed.

(** Options other than [--data-size] never bind [data_size]. *)
Lemma parse_known_keeps_data_size (argv : list (string * string))
    (ns ns' : gmap string value) :
  (forall raw, ~ In ("--data-size", raw) argv) ->
  parse_known TrainScript.parser argv ns = Ok ns' ->
  ns' !! "data_size" = ns !! "data_size".
Proof.
  revert ns. induction argv as [| [name raw] rest IH]; intros ns Habsent H.
  - now inversion H.
  - cbn [parse_known] in H.
    destruct (find_argument TrainScript.parser name) as [a |] eqn:Ea; [| discriminate].
    destruct (convert (type_ a) raw) as [v |]; [| discriminate].
    apply find_argument_parser in Ea as [Hname Hin].
    rewrite (IH _ (fun raw' Hraw => Habsent raw' (or_intror Hraw)) H).
    apply lookup_insert_ne. intros Hd.
    apply (Habsent raw). left.
    now rewrite <- (dest_data_size a Hin Hd), Hname.
Qed.

(** Filling in the defaults gives [data_size] its declared default, the
    integer 10 as it is, when the command line did not bind it. *)
Lemma fill_defaults_data_size (ns ns' : gmap string value) :
  ns !! "data_size" = None ->
  fill_defaults TrainScript.parser ns = Ok ns' ->
  ns' !! "data_size" = Some (VInt 10).
Proof.
  intros Hns. unfold TrainScript.parser. cbn [fill_defaults dest default_of default].
  repeat match goal with
         | |- context [match ?m !! ?k with _ => _ end] =>
             let E := fresh "E" in destruct (m !! k) eqn:E
         end;
    intros H; inversion H; subst; clear H;
    repeat first [ rewrite lookup_insert_eq | rewrite lookup_insert_ne by discriminate ];
    try reflexivity;
    repeat match goal with
           | E : _ !! "data_size" = Some _ |- _ =>
               repeat (rewrite lookup_insert_ne in E by discriminate);
               rewrite Hns in E; discriminate E
           end;
    congruence.
Qed.

(** The namespace when all four options are given. *)
Lemma parse_args_all_four (folder file size : string) (k : Z) :
  parse_args TrainScript.parser
    [ ("--data-folder", folder); ("--data-file", file);
      ("--top-k", str_int k); ("--data-size", size) ]
  = Ok (<["data_size" := VStr size]>
          (<["top_k" := VInt k]>
             (<["data_file" := VStr file]> (<["data_folder" := VStr folder]> ∅)))).
Proof.
  unfold parse_args, TrainScript.parser.
  cbn [parse_known find_argument List.find option_string String.eqb Ascii.eqb Bool.eqb
       type_ convert dest].
  rewrite int_str_str_int. cbn [option_map fill_defaults dest].
  repeat first [ rewrite lookup_insert_eq | rewrite lookup_insert_ne by discriminate ].
  reflexivity.
Qed.

End ArgParseFacts.

(* ===================================================================== *)
(** * Exceptions outside a handler reach the caller                       *)
(* ===================================================================== *)

Module PropagationFacts.
Import Py MonadFacts.
Local Open Scope list_scope.

Section Logs.
Context {S C : Type}.
Variable tr : S -> list (C * option exn).
Variable G : C -> Prop.

Lemma uncaught_Ok {A : Type} (a : A) (evs : list (C * option exn)) :
  uncaught_is_result G (Ok a) evs -> Forall (settled G) evs.
Proof.
  destruct evs as [| ev older]; simpl; [constructor |].
  intros [[H | (e & _ & H)] Hold]; [now constructor | discriminate].
Qed.

Lemma uncaught_settled {A : Type} (r : Res A) (evs : list (C * option exn)) :
  Forall (settled G) evs -> uncaught_is_result G r evs.
Proof. destruct evs; simpl; [trivial |]. intros H. inversion H; subst. auto. Qed.

Lemma uncaught_Raised {A B : Type} (e : exn) (evs : list (C * option exn)) :
  uncaught_is_result G (Raised e : Res A) evs -> uncaught_is_result G (Raised e : Res B) evs.
Proof.
  destruct evs as [| ev older]; simpl; [trivial |].
  intros [[H | (e' & H1 & H2)] Hold]; split; auto.
  right. exists e'. split; [exact H1 | congruence].
Qed.

(** What the log says of a call that raised. *)
Lemma uncaught_In {A : Type} (r : Res A) (evs : list (C * option exn)) (c : C) (e : exn) :
  uncaught_is_result G r evs -> In (c, Some e) evs ->
  G c \/ (r = Raised e /\ hd_error evs = Some (c, Some e)).
Proof.
  destruct evs as [| ev older]; simpl; [tauto |].
  intros [Hnew Hold] [-> | Hin].
  - destruct Hnew as [[H | H] | (e' & H1 & H2)]; simpl in *;
      [discriminate | auto | right; split; congruence].
  - rewrite List.Forall_forall in Hold. destruct (Hold _ Hin) as [H | H];
      simpl in H; [discriminate | auto].
Qed.

Lemma propagates_ret {A : Type} (a : A) : propagates tr G (ret a).
Proof. intros s. exists []. simpl. auto. Qed.

Lemma propagates_lift {A : Type} (r : Res A) : propagates tr G (lift r).
Proof. intros s. exists []. simpl. auto. Qed.

Lemma propagates_pure {A : Type} (f : S -> Res A) : propagates tr G (fun s => (f s, s)).
Proof. intros s. exists []. simpl. auto. Qed.

Lemma propagates_bind {A B : Type} (m : M S A) (k : A -> M S B) :
  propagates tr G m -> (forall a, propagates tr G (k a)) -> propagates tr G (bind m k).
Proof.
  intros Hm Hk s. destruct (Hm s) as (evs1 & Htr1 & H1). unfold bind.
  destruct (m s) as [[a | e] s1]; simpl in *.
  - destruct (Hk a s1) as (evs2 & Htr2 & H2).
    exists (evs2 ++ evs1). split; [now rewrite Htr2, Htr1, app_assoc |].
    apply uncaught_Ok in H1.
    destruct evs2 as [| ev older]; simpl in *; [now apply uncaught_settled |].
    destruct H2 as [Hnew Hold]. split; [exact Hnew | now apply Forall_app].
  - exists evs1. split; [exact Htr1 | now apply (@uncaught_Raised A B)].
Qed.

Lemma within_ret {A : Type} (a : A) : within tr G (ret a).
Proof. intros s. exists []. simpl. auto. Qed.

Lemma within_bind {A B : Type} (m : M S A) (k : A -> M S B) :
  within tr G m -> (forall a, within tr G (k a)) -> within tr G (bind m k).
Proof.
  intros Hm Hk s. destruct (Hm s) as (evs1 & Htr1 & H1). unfold bind.
  destruct (m s) as [[a | e] s1]; simpl in *.
  - destruct (Hk a s1) as (evs2 & Htr2 & H2).
    exists (evs2 ++ evs1). split; [now rewrite Htr2, Htr1, app_assoc | now apply Forall_app].
  - exists evs1. auto.
Qed.

(** A bare [except:] swallows what its [try:] body raises; what the handler
    raises goes on. *)
Lemma propagates_try_except {A : Type} (body handler : M S A) :
  within tr G body -> propagates tr G handler -> propagates tr G (try_except body handler).
Proof.
  intros Hb Hh s. destruct (Hb s) as (evs1 & Htr1 & H1). unfold try_except.
  assert (Hset : Forall (settled G) evs1).
  { eapply List.Forall_impl; [| exact H1]. intros ev H. now right. }
  destruct (body s) as [[a | e] s1]; simpl in *.
  - exists evs1. split; [exact Htr1 | now apply uncaught_settled].
  - destruct (Hh s1) as (evs2 & Htr2 & H2).
    exists (evs2 ++ evs1). split; [now rewrite Htr2, Htr1, app_assoc |].
    destruct evs2 as [| ev older]; simpl in *; [now apply uncaught_settled |].
    destruct H2 as [Hnew Hold]. split; [exact Hnew | now apply Forall_app].
Qed.

End Logs.

(** ** The notebook *)

Section NotebookLog.
Import Notebook.
Variable env : Env.

Lemma log_effect (d : string) (c : call) (w : World) : log (effect d c w) = log w.
Proof. destruct c; reflexivity. Qed.

Lemma sdk_log (c : call) (w : World) :
  exists o, log (snd (sdk env c w)) = (c, o) :: log w
            /\ match o with
               | Some e => fst (sdk env c w) = Raised e
               | None => fst (sdk env c w) = Ok tt
               end.
Proof.
  unfold sdk. destruct (fails env c) as [e |]; simpl.
  - exists (Some e). auto.
  - exists None. now rewrite log_effect.
Qed.

Lemma sdk_propagates (c : call) : propagates log in_try (sdk env c).
Proof.
  intros w. destruct (sdk_log c w) as (o & Hlog & Hres).
  exists [(c, o)]. split; [exact Hlog |]. simpl. split; [| constructor].
  destruct o as [e |]; [right; eauto | left; now left].
Qed.

Lemma sdk_within (c : call) : in_try c -> within log in_try (sdk env c).
Proof.
  intros Hc w. destruct (sdk_log c w) as (o & Hlog & _).
  exists [(c, o)]. split; [exact Hlog | now repeat constructor].
Qed.

Ltac spread :=
  repeat first
    [ apply sdk_propagates
    | apply propagates_ret
    | apply propagates_pure
    | match goal with |- propagates _ _ (if ?b then _ else _) => destruct b end
    | apply propagates_bind; [| intros ?] ].

Lemma cell_compute_target_propagates (ws : Workspace) :
  propagates log in_try (cell_compute_target env ws).
Proof.
  apply propagates_try_except.
  - unfold lookup_compute_target.
    apply within_bind; [apply sdk_within; reflexivity | intros _].
    apply within_bind; [apply sdk_within; reflexivity | intros _].
    apply within_ret.
  - unfold provision_compute_target. spread.
Qed.

Lemma notebook_from_propagates (p : Parameters) : propagates log in_try (notebook_from env p).
Proof.
  unfold notebook_from.
  repeat (apply propagates_bind;
          [ first [ apply cell_compute_target_propagates
                  | unfold cell_workspace, cell_tmp_dir, cell_upload, cell_script_dir,
                      cell_writefile, cell_copy_utils, cell_estimator, cell_submit,
                      cell_monitor, cell_metrics, cell_cleanup, os_path_exists; spread ]
          | intros ? ]).
  apply propagates_ret.
Qed.

Lemma notebook_propagates : propagates log in_try (notebook env).
Proof.
  unfold notebook.
  apply propagates_bind; [unfold cell_imports; spread | intros _].
  apply propagates_bind; [apply propagates_ret | intros p; apply notebook_from_propagates].
Qed.

End NotebookLog.

(** ** The training script: no handler at all *)

Section ScriptLog.
Import TrainScript.
Variable env : Env.

Lemma rlog_effect (c : call) (w : World) : rlog (effect c w) = rlog w.
Proof. destruct c; reflexivity. Qed.

Lemma lib_propagates (c : call) : propagates rlog no_handler (lib env c).
Proof.
  intros w. unfold lib. destruct (fails env c) as [e |]; simpl.
  - exists [(c, Some e)]. split; [reflexivity |]. simpl. split; [right; eauto | constructor].
  - exists [(c, None)]. rewrite rlog_effect. split; [reflexivity |]. simpl.
    split; [left; now left | constructor].
Qed.

Lemma read_data_propagates (path : string) : propagates rlog no_handler (read_data env path).
Proof.
  intros w. unfold read_data. destruct (decide (path ∈ rfiles w)).
  - apply (propagates_bind rlog no_handler); [apply lib_propagates | intros _; apply propagates_ret].
  - exists [(pd_read_pickle path, Some (Exception "FileNotFoundError"))].
    split; [reflexivity |]. simpl. split; [right; eauto | constructor].
Qed.

Lemma train_py_propagates (argv : list (string * string)) :
  propagates rlog no_handler (train_py env argv).
Proof.
  unfold train_py, imports, split_step, with_Timer, eval_at_k.
  repeat first
    [ apply lib_propagates
    | apply read_data_propagates
    | apply propagates_ret
    | apply propagates_lift
    | apply propagates_pure
    | apply propagates_bind; [| intros ?] ].
Qed.

End ScriptLog.

End PropagationFacts.

(* ===================================================================== *)
(** * The shape of a run of the notebook                                  *)
(* ===================================================================== *)

Module RunFacts.
Import Py Notebook.

Ltac unfold_cells :=
  cbv beta iota zeta delta
    [notebook notebook_from cell_imports cell_parameters cell_workspace cell_tmp_dir cell_upload
     cell_compute_target lookup_compute_target provision_compute_target cell_script_dir
     cell_writefile cell_copy_utils cell_estimator cell_submit cell_monitor cell_metrics
     cell_cleanup bind ret try_except sdk os_path_exists record effect set_fs set_blobs
     fst snd log fs blobs start] in *.

(** What a run of the cells below the parameters cell leaves behind when it
    ends normally. *)
Lemma notebook_from_Ok (env : Env) (p : Parameters) (w : World)
    (run : Run) (metrics : list (string * value)) (w' : World) :
  notebook_from env p w = (Ok (run, metrics), w') ->
  est_script_params (run_config run) = script_params p VDataReference
  /\ blobs w'
     = uploaded (tmp_name env) TARGET_DIR
         ({[os_path_join (tmp_name env) (data_file_name p)]} ∪ ({[tmp_name env]} ∪ fs w))
       ∪ blobs w
  /\ metrics = firstn (metrics_visible env) (job_metrics env run w')
  /\ In (ds_upload (tmp_name env) "movielens" true false, None) (log w').
Proof.
  intros H. unfold_cells.
  repeat match type of H with
         | context [fails ?e ?c] => destruct (fails e c) eqn:?; try discriminate H
         | context [bool_decide ?P] => destruct (bool_decide P) eqn:?
         end;
    inversion H; subst; clear H; repeat split; try reflexivity;
    simpl; tauto.
Qed.

(** The same for a run of all cells. *)
Lemma notebook_Ok (env : Env) (w : World) (run : Run) (metrics : list (string * value))
    (w' : World) :
  notebook env w = (Ok (run, metrics), w') ->
  exists w1, notebook_from env {| TOP_K := 10; MOVIELENS_DATA_SIZE := "100k" |} w1
             = (Ok (run, metrics), w').
Proof.
  unfold notebook. intros H.
  apply MonadFacts.bind_inv_Ok in H as (? & w1 & _ & H).
  apply MonadFacts.bind_inv_Ok in H as (p & w2 & Hp & H).
  inversion Hp; subst. now exists w2.
Qed.

(** The calls of a run, whatever the environment answers: the phases come in
    the order of the narrative, a cluster that was created is waited for at
    once, nothing else is waited for, and nothing waits after the submission. *)
Lemma notebook_run_shape (env : Env) (files : gset string) :
  is_prefix (phases (snd (notebook env (start files)))) all_steps = true
  /\ followed_at_once is_create is_wait (trace (snd (notebook env (start files)))) = true
  /\ never_after is_submit is_wait (trace (snd (notebook env (start files)))) = true
  /\ preceded_at_once is_create is_wait None (trace (snd (notebook env (start files)))) = true
  /\ match fst (notebook env (start files)) with
     | Ok _ => phases (snd (notebook env (start files))) = all_steps
     | Raised _ => True
     end.
Proof.
  remember (notebook env (start files)) as out eqn:E.
  unfold_cells.
  repeat match type of E with
         | context [fails ?e ?c] => destruct (fails e c) eqn:?
         | context [bool_decide ?P] => destruct (bool_decide P) eqn:?
         end;
    subst out; repeat split; reflexivity.
Qed.

Lemma is_prefix_firstn (a b : list step) :
  is_prefix a b = true -> a = firstn (length a) b.
Proof.
  revert b. induction a as [| x a IH]; intros [| y b] H; simpl in *; try reflexivity;
    try discriminate.
  apply andb_true_iff in H as [Hxy H].
  rewrite <- (IH _ H). destruct x, y; try discriminate; reflexivity.
Qed.

End RunFacts.

(* ===================================================================== *)
(** * The runs of the training script                                     *)
(* ===================================================================== *)

Module ScriptFacts.
Import Py ArgParse TrainScript Checks.

(** An option that is the only one to bind its attribute, when it does not
    occur, leaves the attribute to the defaults. *)
Lemma parse_known_keeps (opt d : string) (argv : list (string * string))
    (ns ns' : gmap string value) :
  (forall a, In a parser -> dest a = d -> option_string a = opt) ->
  (forall raw, ~ In (opt, raw) argv) ->
  parse_known parser argv ns = Ok ns' ->
  ns' !! d = ns !! d.
Proof.
  intros Honly. revert ns. induction argv as [| [name raw] rest IH]; intros ns Habsent H.
  - now inversion H.
  - cbn [parse_known] in H.
    destruct (find_argument parser name) as [a |] eqn:Ea; [| discriminate].
    destruct (convert (type_ a) raw) as [v |]; [| discriminate].
    apply ArgParseFacts.find_argument_parser in Ea as [Hname Hin].
    rewrite (IH _ (fun raw' Hraw => Habsent raw' (or_intror Hraw)) H).
    apply lookup_insert_ne. intros Hd.
    apply (Habsent raw). left. now rewrite <- (Honly a Hin Hd), Hname.
Qed.

Ltac fill_cases Hns :=
  unfold parser; cbn [fill_defaults dest default_of default];
  repeat match goal with
         | |- context [match ?m !! ?k with _ => _ end] =>
             let E := fresh "E" in destruct (m !! k) eqn:E
         end;
  intros H; inversion H; subst; clear H;
  repeat first [ rewrite lookup_insert_eq | rewrite lookup_insert_ne by discriminate ];
  try reflexivity;
  repeat match goal with
         | E : _ !! _ = Some _ |- _ =>
             repeat (rewrite lookup_insert_ne in E by discriminate);
             rewrite Hns in E; discriminate E
         end;
  try congruence.

Lemma fill_defaults_data_folder (ns ns' : gmap string value) :
  ns !! "data_folder" = None ->
  fill_defaults parser ns = Ok ns' -> ns' !! "data_folder" = Some VNone.
Proof. intros Hns. fill_cases Hns. Qed.

Lemma fill_defaults_data_file (ns ns' : gmap string value) :
  ns !! "data_file" = None ->
  fill_defaults parser ns = Ok ns' -> ns' !! "data_file" = Some VNone.
Proof. intros Hns. fill_cases Hns. Qed.

(** After [parse_args] every declared attribute is there. *)
Lemma fill_defaults_binds (ns ns' : gmap string value) :
  fill_defaults parser ns = Ok ns' ->
  is_Some (ns' !! "data_folder") /\ is_Some (ns' !! "data_file")
  /\ is_Some (ns' !! "top_k") /\ is_Some (ns' !! "data_size").
Proof.
  unfold parser; cbn [fill_defaults dest default_of default].
  repeat match goal with
         | |- context [match ?m !! ?k with _ => _ end] =>
             let E := fresh "E" in destruct (m !! k) eqn:E
         end;
    intros H; inversion H; subst; clear H;
    repeat match goal with
           | E : _ !! _ = _ |- _ => rewrite lookup_insert_ne in E by discriminate
           end;
    repeat split;
    repeat first [ rewrite lookup_insert_eq | rewrite lookup_insert_ne by discriminate ];
    eauto.
Qed.

Lemma only_option (opt d : string) :
  In (opt, d) [("--data-folder", "data_folder"); ("--data-file", "data_file");
              ("--top-k", "top_k")] ->
  forall a, In a parser -> dest a = d -> option_string a = opt.
Proof.
  simpl. intros [H | [H | [H | []]]]; inversion H; subst;
    intros a [<- | [<- | [<- | [<- | []]]]]; simpl; intros E;
    first [discriminate E | reflexivity].
Qed.

(** Without [--data-folder] or without [--data-file] there is no path. *)
Lemma no_pickle_path (argv : list (string * string)) (args : gmap string value) :
  (forall raw, ~ In ("--data-folder", raw) argv) \/ (forall raw, ~ In ("--data-file", raw) argv) ->
  parse_args parser argv = Ok args ->
  data_pickle_path args = Raised (Exception "TypeError").
Proof.
  intros Habsent Hparse. unfold parse_args in Hparse.
  destruct (parse_known parser argv ∅) as [ns0 | e] eqn:E; [| discriminate].
  unfold data_pickle_path, attr.
  destruct Habsent as [Habsent | Habsent].
  - rewrite (fill_defaults_data_folder ns0 args); [| | exact Hparse].
    + destruct (fill_defaults_binds _ _ Hparse) as (_ & [v ->] & _). reflexivity.
    + rewrite (parse_known_keeps "--data-folder" "data_folder" _ _ _
                 (only_option _ _ (or_introl eq_refl)) Habsent E).
      apply lookup_empty.
  - rewrite (fill_defaults_data_file ns0 args); [| | exact Hparse].
    + destruct (fill_defaults_binds _ _ Hparse) as ([v ->] & _). now destruct v.
    + rewrite (parse_known_keeps "--data-file" "data_file" _ _ _
                 (only_option _ _ (or_intror (or_introl eq_refl))) Habsent E).
      apply lookup_empty.
Qed.

(** [args.top_k] is always an integer: [--top-k] goes through [int], and the
    default is the integer 10. *)
Lemma parse_known_top_k (argv : list (string * string)) (ns ns' : gmap string value) :
  (forall v, ns !! "top_k" = Some v -> exists z, v = VInt z) ->
  parse_known parser argv ns = Ok ns' ->
  forall v, ns' !! "top_k" = Some v -> exists z, v = VInt z.
Proof.
  revert ns. induction argv as [| [name raw] rest IH]; intros ns Hns H.
  - inversion H; subst. exact Hns.
  - cbn [parse_known] in H.
    destruct (find_argument parser name) as [a |] eqn:Ea; [| discriminate].
    destruct (convert (type_ a) raw) as [v |] eqn:Ev; [| discriminate].
    apply ArgParseFacts.find_argument_parser in Ea as [_ Hin].
    refine (IH _ _ H). intros v'.
    destruct (String.eqb_spec (dest a) "top_k") as [Hd | Hd].
    + rewrite Hd, lookup_insert_eq. intros Hv; inversion Hv; subst v'.
      simpl in Hin. destruct Hin as [<- | [<- | [<- | [<- | []]]]];
        simpl in Hd, Ev; try discriminate Hd.
      destruct (int_str raw) as [z |]; [| discriminate]. inversion Ev. eauto.
    + rewrite lookup_insert_ne by exact Hd. apply Hns.
Qed.

(** Defaults never replace what the command line has bound. *)
Lemma fill_defaults_keeps (p : list argument) (d : string) (v : value)
    (ns ns' : gmap string value) :
  ns !! d = Some v -> fill_defaults p ns = Ok ns' -> ns' !! d = Some v.
Proof.
  revert ns. induction p as [| a p IH]; intros ns Hd H; simpl in H.
  - inversion H; subst. exact Hd.
  - destruct (ns !! dest a) eqn:Ea; [now apply (IH ns) |].
    destruct (default_of a) as [v' |]; [| discriminate].
    refine (IH _ _ H). rewrite lookup_insert_ne; [exact Hd |].
    intros Heq. rewrite Heq, Hd in Ea. discriminate.
Qed.

Lemma fill_defaults_top_k (ns ns' : gmap string value) :
  ns !! "top_k" = None ->
  fill_defaults parser ns = Ok ns' -> ns' !! "top_k" = Some (VInt 10).
Proof. intros Hns. fill_cases Hns. Qed.

Lemma parse_args_top_k (argv : list (string * string)) (args : gmap string value) :
  parse_args parser argv = Ok args -> exists z, args !! "top_k" = Some (VInt z).
Proof.
  unfold parse_args. intros H.
  destruct (parse_known parser argv ∅) as [ns0 | e] eqn:E; [| discriminate].
  destruct (ns0 !! "top_k") as [v |] eqn:Et.
  - destruct (parse_known_top_k argv ∅ ns0) with (v := v) as [z ->]; auto.
    + intros v0 H0. rewrite lookup_empty in H0. discriminate.
    + exists z. eapply fill_defaults_keeps; eassumption.
  - exists 10. now apply fill_defaults_top_k with (ns := ns0).
Qed.

(** Without [--top-k], [args.top_k] is the default. *)
Lemma parse_args_default_top_k (argv : list (string * string)) (args : gmap string value) :
  (forall raw, ~ In ("--top-k", raw) argv) ->
  parse_args parser argv = Ok args -> args !! "top_k" = Some (VInt 10).
Proof.
  intros Habsent H. unfold parse_args in H.
  destruct (parse_known parser argv ∅) as [ns0 | e] eqn:E; [| discriminate].
  apply fill_defaults_top_k with (ns := ns0); [| exact H].
  rewrite (parse_known_keeps "--top-k" "top_k" _ _ _
             (only_option _ _ (or_intror (or_intror (or_introl eq_refl)))) Habsent E).
  apply lookup_empty.
Qed.

Lemma is_initial_In (a b : list string) (x : string) :
  is_initial a b = true -> In x a -> In x b.
Proof.
  revert b. induction a as [| y a IH]; intros [| z b] H Hx; simpl in *;
    try contradiction; try discriminate.
  apply andb_true_iff in H as [Hyz H]. apply String.eqb_eq in Hyz. subst z.
  destruct Hx as [-> | Hx]; [now left | right; now apply IH].
Qed.

Lemma is_initial_firstn (n : nat) (a b : list string) :
  is_initial a b = true -> is_initial (firstn n a) b = true.
Proof.
  revert a b. induction n as [| n IH]; intros [| y a] [| z b] H; simpl in *;
    try reflexivity; try discriminate.
  apply andb_true_iff in H as [Hyz H]. rewrite Hyz. simpl. now apply IH.
Qed.

Lemma In_firstn {A : Type} (n : nat) (l : list A) (x : A) : In x (firstn n l) -> In x l.
Proof.
  revert l. induction n as [| n IH]; intros [| y l] H; simpl in *; try contradiction.
  destruct H as [-> | H]; [now left | right; now apply IH].
Qed.

(** In a log whose names are an initial part of [metric_names] and whose
    first records are the arguments, the records named [top-k] and
    [data-size] are the arguments. *)
Lemma logged_arguments (args : gmap string value) (l : list (string * value)) :
  is_initial (map fst l) metric_names = true ->
  logs_arguments args l ->
  (forall v, In ("top-k", v) l -> attr args "top_k" = Ok v)
  /\ (forall v, In ("data-size", v) l -> attr args "data_size" = Ok v).
Proof.
  intros Hinit Hargs.
  destruct l as [| [n1 v1] [| [n2 v2] rest]].
  - split; intros v [].
  - destruct Hargs as [-> H1]. split; intros v [Hv | []]; inversion Hv; subst. exact H1.
  - destruct Hargs as (-> & H1 & -> & H2).
    assert (Hrest : forall x, In x (map fst rest) ->
                      In x ["Training time"; "Prediction time"; "map"; "ndcg";
                            "precision"; "recall"]).
    { intros x Hx. eapply is_initial_In; [| exact Hx]. exact Hinit. }
    split; intros v [Hv | [Hv | Hv]]; try (inversion Hv; subst; assumption).
    + apply (in_map fst) in Hv. apply Hrest in Hv. simpl in Hv.
      repeat destruct Hv as [Hv | Hv]; try discriminate Hv. destruct Hv.
    + apply (in_map fst) in Hv. apply Hrest in Hv. simpl in Hv.
      repeat destruct Hv as [Hv | Hv]; try discriminate Hv. destruct Hv.
Qed.

Ltac unfold_script :=
  cbv beta iota zeta delta
    [train_py imports split_step with_Timer eval_at_k lib read_data bind ret lift
     TrainScript.record TrainScript.effect boot fst snd rfiles logged rlog rng] in *.

(** The term a nest of [match]es waits for. *)
Ltac head_scrutinee t :=
  lazymatch t with
  | match ?x with _ => _ end => head_scrutinee x
  | ?f _ =>
      lazymatch f with
      | match ?x with _ => _ end => head_scrutinee x
      | _ => t
      end
  | _ => t
  end.

(** Follow the run [E : out = ...] answer by answer, outermost first. *)
Ltac follow E :=
  repeat lazymatch type of E with
         | _ = ?rhs =>
             let x := head_scrutinee rhs in
             lazymatch x with
             | (_, _) => fail
             | _ => destruct x eqn:?; cbv beta iota in E
             end
         end.

(** The calls and the metrics of a run of the script, whatever the
    environment answers. *)
Lemma train_py_shape (env : Env) (argv : list (string * string)) (files : gset string) :
  is_initial (map fst (logged (snd (train_py env argv (boot env files))))) metric_names = true
  /\ match fst (train_py env argv (boot env files)) with
     | Ok _ => map fst (logged (snd (train_py env argv (boot env files)))) = metric_names
     | Raised _ => True
     end
  /\ (logged (snd (train_py env argv (boot env files))) = []
      \/ exists args,
           parse_args parser argv = Ok args
           /\ logs_arguments args (logged (snd (train_py env argv (boot env files)))))
  /\ (exists z,
        all_calls (made_with_k (VInt z)) (rlog (snd (train_py env argv (boot env files))))
        /\ forall args, parse_args parser argv = Ok args -> args !! "top_k" = Some (VInt z))
  /\ (if existsb is_upload_file (rlog (snd (train_py env argv (boot env files))))
      then all_calls uploads_model (rlog (snd (train_py env argv (boot env files))))
           /\ MODEL_FILE_NAME ∈ rfiles (snd (train_py env argv (boot env files)))
           /\ map fst (logged (snd (train_py env argv (boot env files)))) = metric_names
      else True).
Proof.
  assert (Hk : exists z, forall args,
               parse_args parser argv = Ok args -> args !! "top_k" = Some (VInt z)).
  { destruct (parse_args parser argv) as [args | e] eqn:Hp.
    - destruct (parse_args_top_k _ _ Hp) as [z Hz]. exists z.
      intros ? Hq. inversion Hq; subst. exact Hz.
    - exists 0. intros ? Hq. discriminate Hq. }
  destruct Hk as [z Hk].
  remember (train_py env argv (boot env files)) as out eqn:E.
  unfold_script. follow E; subst out.
  all: split; [reflexivity |].
  all: split; [first [exact I | reflexivity] |].
  all: split;
    [ first [ left; reflexivity
            | right; eexists; split; [reflexivity |]; cbn [app logs_arguments]; repeat split;
              first [reflexivity | assumption] ] |].
  all: split;
    [ exists z; split; [| exact Hk];
      repeat match goal with
             | Ha : attr ?a "top_k" = Ok _ |- _ =>
                 unfold attr in Ha; rewrite (Hk a eq_refl) in Ha; inversion Ha; subst; clear Ha
             end;
      cbn [all_calls made_with_k String.eqb Ascii.eqb Bool.eqb]; repeat split; reflexivity |].
  all: cbn [existsb is_upload_file fst orb app map];
    first [exact I | repeat split; try reflexivity; set_solver].
Qed.

(** The script started without a data folder or without a data file. *)
Lemma train_py_without_path (env : Env) (argv : list (string * string)) (files : gset string) :
  (forall raw, ~ In ("--data-folder", raw) argv) \/ (forall raw, ~ In ("--data-file", raw) argv) ->
  (exists e, fst (train_py env argv (boot env files)) = Raised e)
  /\ logged (snd (train_py env argv (boot env files))) = []
  /\ existsb is_read (rlog (snd (train_py env argv (boot env files)))) = false
  /\ ((forall c, fails env c = None) ->
      (exists args, parse_args parser argv = Ok args) ->
      fst (train_py env argv (boot env files)) = Raised (Exception "TypeError")).
Proof.
  intros Habsent.
  pose proof (no_pickle_path argv) as Hno. specialize (fun args => Hno args Habsent).
  remember (train_py env argv (boot env files)) as out eqn:E.
  unfold_script. follow E; subst out.
  all: try match goal with
           | Hd : data_pickle_path ?a = Ok _ |- _ =>
               exfalso; rewrite (Hno a eq_refl) in Hd; discriminate Hd
           end.
  all: split; [eexists; reflexivity |].
  all: split; [reflexivity |].
  all: split; [reflexivity |].
  all: intros Hall [args Hp];
    try match goal with
        | Hf : fails _ ?c = Some _ |- _ => rewrite Hall in Hf; discriminate Hf
        end;
    try discriminate Hp.
  all: match goal with
       | Hd : data_pickle_path ?a = Raised _ |- _ =>
           rewrite (Hno a eq_refl) in Hd; inversion Hd; reflexivity
       end.
Qed.

End ScriptFacts.

(* ===================================================================== *)
(** * The datastore and the temporary directory                           *)
(* ===================================================================== *)

Module StoreFacts.
Import Py Notebook PathFacts Checks.

Lemma length_append (a b : string) :
  String.length (a +:+ b) = (String.length a + String.length b)%nat.
Proof. induction a as [| c a IH]; [reflexivity |]. rewrite append_cons. simpl. now rewrite IH. Qed.

Lemma length_as_dir (d : string) : (String.length d <= String.length (as_dir d))%nat.
Proof. unfold as_dir. destruct (endswith_sep d); [lia |]. rewrite length_append. lia. Qed.

(** A path in the tree of [d] is at least as long as [d]. *)
Lemma in_tree_length (d p : string) :
  in_tree d p = true -> (String.length d <= String.length p)%nat.
Proof.
  intros H. destruct (in_tree_cases _ _ H) as [-> | [r ->]]; [lia |].
  rewrite length_append. pose proof (length_as_dir d). lia.
Qed.

Lemma length_join (a b : string) :
  a <> "" -> startswith_sep b = false ->
  (String.length a + String.length b <= String.length (os_path_join a b))%nat.
Proof.
  intros Ha Hb. rewrite os_path_join_below by assumption.
  rewrite length_append. pose proof (length_as_dir a). lia.
Qed.

(** The temporary directory is not inside its own [reco_utils] copy. *)
Lemma tmp_outside_utils (tmp : string) :
  tmp <> "" -> in_tree (UTILS_DIR {| name := tmp |}) tmp = false.
Proof.
  intros Htmp. destruct (in_tree _ tmp) eqn:E; [| reflexivity].
  apply in_tree_length in E. unfold UTILS_DIR, SCRIPT_DIR in E. simpl in E.
  pose proof (length_join (os_path_join tmp "movielens-sar") "reco_utils"
                (os_path_join_nonempty _ _ Htmp) eq_refl) as H1.
  pose proof (length_join tmp "movielens-sar" Htmp eq_refl) as H2.
  simpl in H1, H2. lia.
Qed.

Lemma strip_prefix_longer (a b : string) : b <> "" -> strip_prefix (a +:+ b) a = None.
Proof.
  intros Hb. induction a as [| c a IH].
  - destruct b; [congruence | reflexivity].
  - rewrite append_cons. simpl. now rewrite Ascii.eqb_refl.
Qed.

Lemma relative_to_self (d : string) : endswith_sep d = false -> relative_to d d = None.
Proof.
  intros Hd. unfold relative_to, as_dir. rewrite Hd. now apply strip_prefix_longer.
Qed.

Lemma relative_to_outside (d p : string) : in_tree d p = false -> relative_to d p = None.
Proof.
  unfold in_tree. intros H. apply orb_false_iff in H as [_ H].
  now destruct (relative_to d p).
Qed.

(** Uploading a temporary directory that holds nothing but the pickle
    creates one blob. *)
Lemma uploaded_fresh (tmp : string) (p : Parameters) (files : gset string) :
  tmp <> "" -> endswith_sep tmp = false ->
  (forall q, q ∈ files -> in_tree tmp q = false) ->
  uploaded tmp TARGET_DIR ({[os_path_join tmp (data_file_name p)]} ∪ ({[tmp]} ∪ files))
  = {["movielens/" +:+ data_file_name p]}.
Proof.
  intros Htmp Hsep Hfresh. apply set_eq. intros y.
  unfold uploaded. rewrite elem_of_set_omap, elem_of_singleton. split.
  - intros (x & Hx & Hy). unfold relocate in Hy.
    apply elem_of_union in Hx as [Hx | Hx]; [| apply elem_of_union in Hx as [Hx | Hx]].
    + apply elem_of_singleton in Hx. subst x.
      rewrite os_path_join_below, relative_to_below in Hy by (assumption || reflexivity).
      now inversion Hy.
    + apply elem_of_singleton in Hx. subst x.
      rewrite relative_to_self in Hy by assumption. discriminate.
    + rewrite relative_to_outside in Hy by auto. discriminate.
  - intros ->. exists (os_path_join tmp (data_file_name p)). split.
    + apply elem_of_union_l, elem_of_singleton. reflexivity.
    + unfold relocate.
      rewrite os_path_join_below, relative_to_below by (assumption || reflexivity).
      reflexivity.
Qed.

Lemma script_dir_not_empty (d : TemporaryDirectory) : SCRIPT_DIR d <> "".
Proof.
  destruct d as [n]. unfold SCRIPT_DIR. simpl.
  destruct (String.eqb_spec n "") as [-> | Hn]; [discriminate |].
  now apply os_path_join_nonempty.
Qed.

(** The script is not inside the [reco_utils] copy next to it. *)
Lemma train_file_outside_utils (d : TemporaryDirectory) :
  in_tree (UTILS_DIR d) (TRAIN_FILE d) = false.
Proof.
  destruct (in_tree _ _) eqn:E; [| reflexivity].
  apply in_tree_length in E. unfold UTILS_DIR, TRAIN_FILE in E.
  rewrite !os_path_join_below in E by (apply script_dir_not_empty || reflexivity).
  rewrite !length_append in E. simpl in E. lia.
Qed.

(** Membership in a set built from singletons, unions, copies and
    differences by trees, given what lies outside those trees. *)
Ltac member :=
  lazymatch goal with
  | |- _ /\ _ => split; member
  | |- _ ∈ _ ∪ _ => first [apply elem_of_union_l; member | apply elem_of_union_r; member]
  | |- ?x ∈ {[ ?y ]} => constr_eq x y; apply elem_of_singleton_2; reflexivity
  | |- _ ∈ copied _ _ _ => unfold copied; member
  | |- _ ∈ _ ∖ tree _ _ =>
      apply elem_of_difference; split;
      [ member
      | let H := fresh in
        intros H; apply FrameFacts.elem_of_tree in H as [H _]; congruence ]
  end.

(** The datastore after a run of the cells below the parameters cell,
    whatever the environment answers. *)
Lemma notebook_from_blobs (env : Env) (p : Parameters) (files : gset string) :
  blobs (snd (notebook_from env p (start files)))
  = (if existsb is_upload (log (snd (notebook_from env p (start files))))
     then uploaded (tmp_name env) TARGET_DIR
            ({[os_path_join (tmp_name env) (data_file_name p)]} ∪ ({[tmp_name env]} ∪ files))
          ∪ ∅
     else ∅).
Proof.
  remember (notebook_from env p (start files)) as out eqn:E.
  RunFacts.unfold_cells. ScriptFacts.follow E; subst out; reflexivity.
Qed.

(** A run of all cells, whatever the environment answers: a job is handed
    in only once the compute target is there; as long as the temporary
    directory has not been removed, a job that was handed in has its script
    and the [reco_utils] copy on disk; a run that ends with an exception
    leaves the temporary directory it made. *)
Lemma notebook_shape (env : Env) (files : gset string) :
  submits_when_ready false (trace (snd (notebook env (start files)))) = true
  /\ (if existsb is_submission (log (snd (notebook env (start files))))
         && negb (existsb cleaned_up (log (snd (notebook env (start files)))))
      then TRAIN_FILE {| name := tmp_name env |} ∈ fs (snd (notebook env (start files)))
           /\ UTILS_DIR {| name := tmp_name env |} ∈ fs (snd (notebook env (start files)))
      else True)
  /\ (tmp_name env <> "" ->
      match fst (notebook env (start files)) with
      | Raised _ =>
          if existsb made_tmp_dir (log (snd (notebook env (start files))))
          then tmp_name env ∈ fs (snd (notebook env (start files)))
          else True
      | Ok _ => True
      end).
Proof.
  pose proof (tmp_outside_utils (tmp_name env)) as Hutil.
  pose proof (train_file_outside_utils {| name := tmp_name env |}) as Htrain.
  remember (notebook env (start files)) as out eqn:E.
  RunFacts.unfold_cells. ScriptFacts.follow E; subst out.
  all: split; [reflexivity |].
  all: split;
    [ cbv beta iota delta [existsb is_submission is_submit cleaned_up fst orb andb negb]
    | intros Htmp; specialize (Hutil Htmp);
      cbv beta iota delta [existsb made_tmp_dir orb] ].
  all: try exact I.
  all: solve [member].
Qed.

End StoreFacts.

(* ===================================================================== *)
(** * The model on the recorded run of the notebook                       *)
(* ===================================================================== *)

(** The paths printed by cells 15 and 16. *)
Example recorded_train_file :
  Notebook.TRAIN_FILE {| Notebook.name := "/tmp/tmp6imrlt0z" |}
  = "/tmp/tmp6imrlt0z/movielens-sar/train.py".
Proof. reflexivity. Qed.

Example recorded_utils_dir :
  Notebook.UTILS_DIR {| Notebook.name := "/tmp/tmp6imrlt0z" |}
  = "/tmp/tmp6imrlt0z/movielens-sar/reco_utils".
Proof. reflexivity. Qed.

(** The keys of the metrics dict shown under cell 26, the job being over. *)
Example recorded_metrics_keys :
  match fst (Notebook.notebook (Samples.machine Samples.no_cluster 8)
               (Notebook.start Samples.checkout)) with
  | Py.Ok (_, metrics) =>
      map fst metrics
      = [ "top-k"; "data-size"; "Training time"; "Prediction time";
          "map"; "ndcg"; "precision"; "recall" ]
      /\ map snd (firstn 2 metrics) = [Py.VInt 10; Py.VStr "100k"]
  | Py.Raised _ => False
  end.
Proof. vm_compute. split; reflexivity. Qed.

(** Started with no option at all, the script stops at
    [os.path.join(None, None)]. *)
Example train_py_without_options :
  fst (TrainScript.train_py (Samples.node Samples.all_succeed) []
         (TrainScript.boot (Samples.node Samples.all_succeed) ∅))
  = Py.Raised (Py.Exception "TypeError").
Proof. vm_compute. reflexivity. Qed.

(** Without a seed the sample splitter follows the process-wide generator:
    the seed is what makes the split repeatable. *)
Example unseeded_cut_varies :
  Samples.cut 1 Samples.ratings TrainScript.ratio_0_75 "UserId" "MovieId" None
  <> Samples.cut 2 Samples.ratings TrainScript.ratio_0_75 "UserId" "MovieId" None.
Proof. vm_compute. discriminate. Qed.

(** [posixpath.join] on the shapes of paths that occur. *)
Example os_path_join_shapes :
  Py.os_path_join "/tmp/d" "f" = "/tmp/d/f"
  /\ Py.os_path_join "/tmp/d/" "f" = "/tmp/d/f"
  /\ Py.os_path_join "" "f" = "f"
  /\ Py.os_path_join "/tmp/d" "/f" = "/f".
Proof. repeat split. Qed.

(* ===================================================================== *)
(** * The claims                                                          *)
(* ===================================================================== *)

(** C1. In the compute-target cell the lookup of the cluster [cpucluster]
    stands under a bare [except:]: whatever exception the lookup raises is
    caught and the except-body runs, which provisions an [AmlCompute] cluster
    of that name with [vm_size] [STANDARD_D2_V2], [min_nodes] 0 and
    [max_nodes] 2 and waits for it.  It is the only handler: any other call
    of the notebook that raises, and any call of [train.py] that raises,
    ends the run with that exception. *)
Theorem cluster_lookup_is_only_handler :
  (forall (env : Notebook.Env) (ws : Notebook.Workspace) (w : Notebook.World) (e : Py.exn),
      let lookup := Notebook.ComputeTarget_ ws "cpucluster" in
      let config :=
        {| Notebook.vm_size := "STANDARD_D2_V2";
           Notebook.min_nodes := 0; Notebook.max_nodes := 2 |} in
      Notebook.fails env lookup = Some e ->
      Notebook.cell_compute_target env ws w
      = Notebook.provision_compute_target env ws (Notebook.record lookup (Some e) w)
      /\ (Notebook.fails env (Notebook.print "Creating a new compute target...") = None ->
          Notebook.fails env (Notebook.AmlCompute_provisioning_configuration "STANDARD_D2_V2" 0 2)
          = None ->
          Notebook.fails env (Notebook.ComputeTarget_create ws "cpucluster" config) = None ->
          Notebook.fails env (Notebook.compute_target_wait_for_completion true Py.VNone 20)
          = None ->
          fst (Notebook.cell_compute_target env ws w)
          = Py.Ok {| Notebook.ct_workspace := ws; Notebook.ct_name := "cpucluster" |}
          /\ Notebook.log (snd (Notebook.cell_compute_target env ws w))
             = [ (Notebook.compute_target_wait_for_completion true Py.VNone 20, None);
                 (Notebook.ComputeTarget_create ws "cpucluster" config, None);
                 (Notebook.AmlCompute_provisioning_configuration "STANDARD_D2_V2" 0 2, None);
                 (Notebook.print "Creating a new compute target...", None);
                 (lookup, Some e) ] ++ Notebook.log w))
  /\ (forall (env : Notebook.Env) (files : gset string) (c : Notebook.call) (e : Py.exn),
        In (c, Some e) (Notebook.log (snd (Notebook.notebook env (Notebook.start files)))) ->
        Notebook.in_try c
        \/ fst (Notebook.notebook env (Notebook.start files)) = Py.Raised e)
  /\ (forall (node : TrainScript.Env) (argv : list (string * string)) (files : gset string)
             (c : TrainScript.call) (e : Py.exn),
        In (c, Some e)
           (TrainScript.rlog (snd (TrainScript.train_py node argv (TrainScript.boot node files)))) ->
        fst (TrainScript.train_py node argv (TrainScript.boot node files)) = Py.Raised e).
Proof.
  split; [| split].
  - intros env ws w e lookup config Hlookup.
    assert (Hcell : Notebook.cell_compute_target env ws w
                    = Notebook.provision_compute_target env ws
                        (Notebook.record lookup (Some e) w)).
    { unfold Notebook.cell_compute_target, Py.try_except, Notebook.lookup_compute_target, Py.bind.
      unfold Notebook.sdk at 1. unfold Notebook.CLUSTER_NAME.
      subst lookup. now rewrite Hlookup. }
    split; [exact Hcell |].
    intros H1 H2 H3 H4. rewrite Hcell.
    unfold Notebook.provision_compute_target, Py.bind, Notebook.sdk, Py.ret,
      Notebook.VM_SIZE, Notebook.MIN_NODES, Notebook.MAX_NODES, Notebook.CLUSTER_NAME.
    fold config. rewrite H1. cbn [Notebook.effect Notebook.record].
    rewrite H2. cbn [Notebook.effect Notebook.record].
    rewrite H3. cbn [Notebook.effect Notebook.record].
    rewrite H4. split; reflexivity.
  - intros env files c e Hin.
    destruct (PropagationFacts.notebook_propagates env (Notebook.start files)) as (evs & Hlog & H).
    simpl in Hlog. rewrite app_nil_r in Hlog. rewrite Hlog in Hin.
    destruct (PropagationFacts.uncaught_In _ _ _ _ _ H Hin) as [Hc | [Hr _]]; auto.
  - intros node argv files c e Hin.
    destruct (PropagationFacts.train_py_propagates node argv (TrainScript.boot node files))
      as (evs & Hlog & H).
    simpl in Hlog. rewrite app_nil_r in Hlog. rewrite Hlog in Hin.
    destruct (PropagationFacts.uncaught_In _ _ _ _ _ H Hin) as [[] | [Hr _]]; exact Hr.
Qed.

(** The notebook's recorded run: there was no cluster, one was created. *)
Lemma cluster_lookup_is_only_handler_witness :
  fst (Notebook.cell_compute_target (Samples.machine Samples.no_cluster 8) Samples.workspace
         (Notebook.start Samples.checkout))
  = Py.Ok {| Notebook.ct_workspace := Samples.workspace; Notebook.ct_name := "cpucluster" |}.
Proof.
  refine (proj1 (proj2
            (proj1 cluster_lookup_is_only_handler (Samples.machine Samples.no_cluster 8)
               Samples.workspace (Notebook.start Samples.checkout)
               (Py.Exception "ComputeTargetException") eq_refl)
            eq_refl eq_refl eq_refl eq_refl)).
Defined.



(** C3. The pipeline file defines exactly: pull-request triggers on [main]
    and [staging]; commit triggers on [staging] and [main]; one variable
    group, [LinuxAgentPool]; and an extension of the template
    [dsvm_linux_template.yml] whose parameters are [test_types] (the single
    value [unit]), [task_name], [conda_env], [conda_opts], [pip_opts] and
    [pytest_markers].  Those four sections are all there is: no key that
    carries executable work occurs, and every parameter is plain data. *)
Theorem pipeline_is_declarative_config :
  Pipeline.keys Pipeline.pipeline = ["pr"; "trigger"; "variables"; "extends"]
  /\ Pipeline.branches "pr" Pipeline.pipeline = Some ["main"; "staging"]
  /\ Pipeline.branches "trigger" Pipeline.pipeline = Some ["staging"; "main"]
  /\ Pipeline.variable_groups Pipeline.pipeline = ["LinuxAgentPool"]
  /\ Pipeline.variable_entries Pipeline.pipeline = 1%nat
  /\ option_map Pipeline.keys (Pipeline.get "extends" Pipeline.pipeline)
     = Some ["template"; "parameters"]
  /\ Pipeline.get_path ["extends"; "template"] Pipeline.pipeline
     = Some (Pipeline.YScalar "dsvm_linux_template.yml")
  /\ option_map Pipeline.keys (Pipeline.get_path ["extends"; "parameters"] Pipeline.pipeline)
     = Some ["test_types"; "task_name"; "conda_env"; "conda_opts"; "pip_opts"; "pytest_markers"]
  /\ Pipeline.get_path ["extends"; "parameters"; "test_types"] Pipeline.pipeline
     = Some (Pipeline.YSeq [Pipeline.YScalar "unit"])
  /\ existsb (fun k => Pipeline.mentions k Pipeline.pipeline) Pipeline.executable_keys = false
  /\ Pipeline.parameters_are_data Pipeline.pipeline = true.
Proof. repeat split. Qed.


(** C5. Running the code cells top to bottom goes through the phases in the
    order workspace creation, dataset upload, compute-target acquisition,
    training-script generation, estimator submission, run monitoring, metric
    retrieval, cleanup: whatever the environment answers, the phases of a run
    are an initial part of that sequence, so no phase starts before all its
    predecessors have; a run that ends normally went through all of them. *)
Theorem steps_in_order (env : Notebook.Env) (files : gset string) :
  let out := Notebook.notebook env (Notebook.start files) in
  (exists k, Notebook.phases (snd out) = firstn k Notebook.all_steps)
  /\ (forall v, fst out = Py.Ok v -> Notebook.phases (snd out) = Notebook.all_steps)
  /\ Notebook.all_steps
     = [ Notebook.WorkspaceCreation; Notebook.DatasetUpload; Notebook.ComputeTargetAcquisition;
         Notebook.ScriptGeneration; Notebook.EstimatorSubmission; Notebook.RunMonitoring;
         Notebook.MetricRetrieval; Notebook.Cleanup ].
Proof.
  intros out. subst out.
  destruct (RunFacts.notebook_run_shape env files) as (Hprefix & _ & _ & _ & Hall).
  split; [| split; [| reflexivity]].
  - eexists. now apply RunFacts.is_prefix_firstn.
  - intros v Hv. now rewrite Hv in Hall.
Qed.











(* ===================================================================== *)
(** * Further properties of the training script and of the notebook       *)
(* ===================================================================== *)

(** X1. Whatever the node answers, [train.py] logs its metrics in the order
    of its [run.log] calls: the names logged are an initial part of [top-k],
    [data-size], [Training time], [Prediction time], [map], [ndcg],
    [precision], [recall]; they are all eight when the script ends normally;
    and the first two records carry [args.top_k] and [args.data_size]. *)
Theorem metrics_logged_in_order (env : TrainScript.Env) (argv : list (string * string))
    (files : gset string) :
  Checks.is_initial
    (map fst (TrainScript.logged (snd (TrainScript.train_py env argv (TrainScript.boot env files)))))
    Checks.metric_names = true
  /\ (forall u,
        fst (TrainScript.train_py env argv (TrainScript.boot env files)) = Py.Ok u ->
        map fst (TrainScript.logged (snd (TrainScript.train_py env argv (TrainScript.boot env files))))
        = Checks.metric_names)
  /\ (TrainScript.logged (snd (TrainScript.train_py env argv (TrainScript.boot env files))) = []
      \/ exists args,
           ArgParse.parse_args TrainScript.parser argv = Py.Ok args
           /\ Checks.logs_arguments args
                (TrainScript.logged
                   (snd (TrainScript.train_py env argv (TrainScript.boot env files))))).
Proof.
  destruct (ScriptFacts.train_py_shape env argv files) as (Hinit & Hall & Hargs & _).
  split; [exact Hinit |]. split; [| exact Hargs].
  intros u Hu. rewrite Hu in Hall. exact Hall.
Qed.






(** X5. In the compute-target cell the banner stands inside the [try:] block
    too.  When the lookup of the cluster succeeds, the cell returns the
    cluster that was found without any provisioning call if the banner can
    be printed; if printing the banner raises, the bare [except:] takes that
    for a missing cluster and the provisioning body runs although the
    cluster exists. *)
Theorem banner_failure_provisions (env : Notebook.Env) (ws : Notebook.Workspace)
    (w : Notebook.World) :
  Notebook.fails env (Notebook.ComputeTarget_ ws Notebook.CLUSTER_NAME) = None ->
  (Notebook.fails env (Notebook.print "Found existing compute target") = None ->
   Notebook.cell_compute_target env ws w
   = (Py.Ok {| Notebook.ct_workspace := ws; Notebook.ct_name := Notebook.CLUSTER_NAME |},
      Notebook.record (Notebook.print "Found existing compute target") None
        (Notebook.record (Notebook.ComputeTarget_ ws Notebook.CLUSTER_NAME) None w)))
  /\ (forall e,
        Notebook.fails env (Notebook.print "Found existing compute target") = Some e ->
        Notebook.cell_compute_target env ws w
        = Notebook.provision_compute_target env ws
            (Notebook.record (Notebook.print "Found existing compute target") (Some e)
               (Notebook.record (Notebook.ComputeTarget_ ws Notebook.CLUSTER_NAME) None w))).
Proof.
  intros Hlookup.
  split; [intros Hbanner | intros e Hbanner];
    unfold Notebook.cell_compute_target, Notebook.lookup_compute_target, Py.try_except,
      Py.bind, Py.ret;
    unfold Notebook.sdk at 1 2; rewrite Hlookup; cbv beta iota; rewrite Hbanner;
    reflexivity.
Qed.

(** The cluster exists, the banner cannot be printed: a cluster is created. *)
Lemma banner_failure_provisions_witness :
  In (Notebook.ComputeTarget_create Samples.workspace "cpucluster"
        {| Notebook.vm_size := "STANDARD_D2_V2"; Notebook.min_nodes := 0;
           Notebook.max_nodes := 2 |}, None)
     (Notebook.log
        (snd (Notebook.cell_compute_target (Samples.machine Checks.banner_fails 8)
                Samples.workspace (Notebook.start Samples.checkout)))).
Proof.
  rewrite (proj2 (banner_failure_provisions (Samples.machine Checks.banner_fails 8)
                    Samples.workspace (Notebook.start Samples.checkout) eq_refl)
             (Py.Exception "BrokenPipeError") eq_refl).
  vm_compute. right. left. reflexivity.
Defined.

(** X6. [shutil.copytree] needs a destination that does not exist, and the
    cell that copies [reco_utils] sees to it: either the stale copy is there
    and [shutil.rmtree] raises, which ends the cell, or [copytree] is called
    in a world in which [UTILS_DIR] does not exist and which outside the
    tree of [UTILS_DIR] has the files the cell started with. *)
Theorem copytree_on_absent_destination (env : Notebook.Env)
    (tmp_dir : Notebook.TemporaryDirectory) (w : Notebook.World) :
  (exists e,
     Notebook.UTILS_DIR tmp_dir ∈ Notebook.fs w
     /\ Notebook.cell_copy_utils env tmp_dir w
        = (Py.Raised e,
           Notebook.record (Notebook.shutil_rmtree (Notebook.UTILS_DIR tmp_dir)) (Some e) w))
  \/ (exists w0,
        (Notebook.UTILS_DIR tmp_dir ∉ Notebook.fs w0)
        /\ (forall p, Py.in_tree (Notebook.UTILS_DIR tmp_dir) p = false ->
                      (p ∈ Notebook.fs w0 <-> p ∈ Notebook.fs w))
        /\ Notebook.blobs w0 = Notebook.blobs w
        /\ Notebook.cell_copy_utils env tmp_dir w
           = Notebook.sdk env
               (Notebook.shutil_copytree "../../reco_utils/" (Notebook.UTILS_DIR tmp_dir)) w0).
Proof.
  assert (Hcell :
            Notebook.cell_copy_utils env tmp_dir w
            = if bool_decide (Notebook.UTILS_DIR tmp_dir ∈ Notebook.fs w)
              then match Notebook.fails env (Notebook.shutil_rmtree (Notebook.UTILS_DIR tmp_dir)) with
                   | Some e =>
                       (Py.Raised e,
                        Notebook.record (Notebook.shutil_rmtree (Notebook.UTILS_DIR tmp_dir))
                          (Some e) w)
                   | None =>
                       Notebook.sdk env
                         (Notebook.shutil_copytree "../../reco_utils/" (Notebook.UTILS_DIR tmp_dir))
                         (Notebook.effect (Notebook.tmp_name env)
                            (Notebook.shutil_rmtree (Notebook.UTILS_DIR tmp_dir))
                            (Notebook.record
                               (Notebook.shutil_rmtree (Notebook.UTILS_DIR tmp_dir)) None w))
                   end
              else Notebook.sdk env
                     (Notebook.shutil_copytree "../../reco_utils/" (Notebook.UTILS_DIR tmp_dir)) w).
  { unfold Notebook.cell_copy_utils, Notebook.os_path_exists, Py.bind, Py.ret.
    destruct (bool_decide _); [| reflexivity].
    unfold Notebook.sdk at 1.
    destruct (Notebook.fails env (Notebook.shutil_rmtree _)); reflexivity. }
  rewrite Hcell. clear Hcell.
  destruct (bool_decide (Notebook.UTILS_DIR tmp_dir ∈ Notebook.fs w)) eqn:Hthere.
  - apply bool_decide_eq_true in Hthere.
    destruct (Notebook.fails env (Notebook.shutil_rmtree (Notebook.UTILS_DIR tmp_dir)))
      as [e |] eqn:Hrm.
    + left. exists e. split; [exact Hthere | reflexivity].
    + right. eexists. split; [| split; [| split; [| reflexivity]]].
      * simpl. rewrite elem_of_difference, FrameFacts.elem_of_tree.
        intros [_ Hout]. apply Hout. split; [apply PathFacts.in_tree_self | exact Hthere].
      * intros p Hp. simpl. rewrite elem_of_difference, FrameFacts.elem_of_tree.
        split; [tauto |]. intros Hin. split; [exact Hin |].
        intros [Htree _]. rewrite Htree in Hp. discriminate Hp.
      * reflexivity.
  - apply bool_decide_eq_false in Hthere.
    right. exists w. split; [exact Hthere |]. split; [tauto |]. split; reflexivity.
Qed.



(** X8. The metrics the notebook retrieves come from its own parameters:
    whatever part of the job's log [run.get_metrics()] returns, its names
    are an initial part of the eight metric names, a record named [top-k]
    holds the integer [TOP_K] and a record named [data-size] holds the
    string [MOVIELENS_DATA_SIZE]. *)
Theorem retrieved_metrics_shape (env : Notebook.Env) (p : Notebook.Parameters)
    (w : Notebook.World) (run : Notebook.Run) (metrics : list (string * Py.value))
    (w' : Notebook.World) :
  Notebook.notebook_from env p w = (Py.Ok (run, metrics), w') ->
  Checks.is_initial (map fst metrics) Checks.metric_names = true
  /\ (forall v, In ("top-k", v) metrics -> v = Py.VInt (Notebook.TOP_K p))
  /\ (forall v, In ("data-size", v) metrics -> v = Py.VStr (Notebook.MOVIELENS_DATA_SIZE p)).
Proof.
  intros Hrun.
  destruct (RunFacts.notebook_from_Ok _ _ _ _ _ _ Hrun) as (Hparams & _ & -> & _).
  assert (Hjob :
            Notebook.job_metrics env run w'
            = TrainScript.logged
                (snd (TrainScript.train_py (Notebook.node env)
                        [ ("--data-folder", TrainScript.mount_point (Notebook.node env));
                          ("--data-file", "movielens/" +:+ Notebook.data_file_name p);
                          ("--top-k", Py.str_int (Notebook.TOP_K p));
                          ("--data-size", Notebook.MOVIELENS_DATA_SIZE p) ]
                        (TrainScript.boot (Notebook.node env)
                           (Notebook.mounted env (Notebook.blobs w')))))).
  { unfold Notebook.job_metrics, Notebook.job. rewrite Hparams.
    cbn [Notebook.script_params Notebook.job_argv Notebook.render].
    unfold Notebook.job_world. now destruct (TrainScript.train_py _ _ _). }
  rewrite Hjob. clear Hjob.
  destruct (ScriptFacts.train_py_shape (Notebook.node env)
              [ ("--data-folder", TrainScript.mount_point (Notebook.node env));
                ("--data-file", "movielens/" +:+ Notebook.data_file_name p);
                ("--top-k", Py.str_int (Notebook.TOP_K p));
                ("--data-size", Notebook.MOVIELENS_DATA_SIZE p) ]
              (Notebook.mounted env (Notebook.blobs w')))
    as (Hinit & _ & Hargs & _).
  split.
  - rewrite <- firstn_map. now apply ScriptFacts.is_initial_firstn.
  - destruct Hargs as [Hnil | (args & Hparse & Hargs)].
    + rewrite Hnil. rewrite firstn_nil. split; intros v [].
    + rewrite ArgParseFacts.parse_args_all_four in Hparse. inversion Hparse; subst args.
      destruct (ScriptFacts.logged_arguments _ _ Hinit Hargs) as [Hk Hsize].
      split; intros v Hv; apply ScriptFacts.In_firstn in Hv.
      * apply Hk in Hv. unfold ArgParse.attr in Hv.
        rewrite lookup_insert_ne, lookup_insert_eq in Hv by discriminate.
        now inversion Hv.
      * apply Hsize in Hv. unfold ArgParse.attr in Hv.
        rewrite lookup_insert_eq in Hv. now inversion Hv.
Qed.

(** The recorded run, the job being over when the metrics are asked for. *)
Lemma retrieved_metrics_shape_witness :
  exists run metrics w',
    Notebook.notebook_from (Samples.machine Samples.no_cluster 8)
      {| Notebook.TOP_K := 10; Notebook.MOVIELENS_DATA_SIZE := "100k" |}
      (Notebook.start Samples.checkout) = (Py.Ok (run, metrics), w')
    /\ Checks.is_initial (map fst metrics) Checks.metric_names = true.
Proof.
  assert (E : exists run metrics w',
             Notebook.notebook_from (Samples.machine Samples.no_cluster 8)
               {| Notebook.TOP_K := 10; Notebook.MOVIELENS_DATA_SIZE := "100k" |}
               (Notebook.start Samples.checkout) = (Py.Ok (run, metrics), w'))
    by (vm_compute; do 3 eexists; reflexivity).
  destruct E as (run & metrics & w' & E). exists run, metrics, w'.
  split; [exact E |].
  exact (proj1 (retrieved_metrics_shape _ _ _ _ _ _ E)).
Defined.

(** X9. Nothing removes the temporary directory when a cell fails: the
    cleanup is the last cell and no [try:]/[finally:] leads to it.  A run of
    all cells that ends with an exception after [TemporaryDirectory()] has
    returned leaves the directory on disk. *)
Theorem failed_run_leaves_tmp_dir (env : Notebook.Env) (files : gset string) (e : Py.exn) :
  Notebook.tmp_name env <> "" ->
  fst (Notebook.notebook env (Notebook.start files)) = Py.Raised e ->
  existsb Checks.made_tmp_dir (Notebook.log (snd (Notebook.notebook env (Notebook.start files))))
  = true ->
  Notebook.tmp_name env ∈ Notebook.fs (snd (Notebook.notebook env (Notebook.start files))).
Proof.
  intros Htmp Hraised Hmade.
  destruct (StoreFacts.notebook_shape env files) as (_ & _ & H).
  specialize (H Htmp). rewrite Hraised, Hmade in H. exact H.
Qed.

(** The download of the dataset fails. *)
Lemma failed_run_leaves_tmp_dir_witness :
  "/tmp/tmp6imrlt0z"
  ∈ Notebook.fs (snd (Notebook.notebook (Samples.machine Checks.download_fails 8)
                        (Notebook.start Samples.checkout))).
Proof.
  refine (failed_run_leaves_tmp_dir (Samples.machine Checks.download_fails 8) Samples.checkout
            (Py.Exception "ConnectionError") _ _ _).
  - discriminate.
  - vm_compute. reflexivity.
  - vm_compute. reflexivity.
Defined.

(** X10. A job is never handed in without a compute target: in every run of
    all cells, whatever the environment answers, each [exp.submit] that is
    attempted comes after the banner of a cluster that was found or after a
    [wait_for_completion] that returned. *)
Theorem submission_needs_compute_target (env : Notebook.Env) (files : gset string) :
  Checks.submits_when_ready false
    (Notebook.trace (snd (Notebook.notebook env (Notebook.start files)))) = true.
Proof. exact (proj1 (StoreFacts.notebook_shape env files)). Qed.

(** X11. The source directory of the estimator is filled before the job is
    handed in: in a run of all cells in which [exp.submit] has been attempted
    and the temporary directory has not been removed, [train.py] and the
    [reco_utils] copy are on disk in the script directory. *)
Theorem source_directory_populated (env : Notebook.Env) (files : gset string) :
  existsb Checks.is_submission
    (Notebook.log (snd (Notebook.notebook env (Notebook.start files)))) = true ->
  existsb Checks.cleaned_up
    (Notebook.log (snd (Notebook.notebook env (Notebook.start files)))) = false ->
  Notebook.TRAIN_FILE {| Notebook.name := Notebook.tmp_name env |}
  ∈ Notebook.fs (snd (Notebook.notebook env (Notebook.start files)))
  /\ Notebook.UTILS_DIR {| Notebook.name := Notebook.tmp_name env |}
     ∈ Notebook.fs (snd (Notebook.notebook env (Notebook.start files))).
Proof.
  intros Hsub Hclean.
  destruct (StoreFacts.notebook_shape env files) as (_ & H & _).
  rewrite Hsub, Hclean in H. exact H.
Qed.

(** The service refuses the submission. *)
Lemma source_directory_populated_witness :
  "/tmp/tmp6imrlt0z/movielens-sar/train.py"
  ∈ Notebook.fs (snd (Notebook.notebook (Samples.machine Samples.submission_refused 8)
                        (Notebook.start Samples.checkout))).
Proof.
  refine (proj1 (source_directory_populated (Samples.machine Samples.submission_refused 8)
                   Samples.checkout _ _)).
  - vm_compute. reflexivity.
  - vm_compute. reflexivity.
Defined.
